(** * Vehicle monitoring (app3.py): cause rules, session log, log store

    A shallow embedding of the decision logic of [app3.py]: the cause
    rules [get_causes], the per-reading enrichment of the Live Monitoring
    loop, the Start/Stop handlers with their flush to [logs/<vehicle>/],
    and the Dashboard's choice of the latest log file.

    Numbers.  The cells of the telemetry frame and the classifier's
    outputs are float64 values.  A finite double is a rational number, so
    a cell is modelled by its exact value in [Q]; Python's [<] and [>] on
    doubles are then the exact comparisons, and an arithmetic operation
    is the exact operation followed by rounding to the nearest double,
    ties to even ([F64.fl]).  NaN and the infinities are outside the
    model. *)

From Stdlib Require Import QArith Qround Qabs Qpower ZArith Lia Lqa List Bool Ascii String.
From stdpp Require Import base option gmap strings list fin_maps.
Import ListNotations.

Local Open Scope string_scope.
Local Open Scope list_scope.

(** ** Python numerics on rationals *)

Module PyNum.

(** [a < b] and [a > b] on numbers. *)
Definition ltb (a b : Q) : bool := negb (Qle_bool b a).
Definition gtb (a b : Q) : bool := negb (Qle_bool a b).

End PyNum.

Infix "<?" := PyNum.ltb (at level 70, no associativity) : Q_scope.
Infix ">?" := PyNum.gtb (at level 70, no associativity) : Q_scope.

(** ** Binary64 arithmetic *)

(** Nearest integer, ties to the even neighbour: [rint]. *)
Definition round_half_even (x : Q) : Z :=
  let f := Qfloor x in
  match (x - inject_Z f ?= 1 # 2)%Q with
  | Lt => f
  | Gt => (f + 1)%Z
  | Eq => if Z.even f then f else (f + 1)%Z
  end.

Module F64.

(** [floor(log2 |x|)] for [x <> 0]: the exponent of the leading binary
    digit of [x]. *)
Definition ilog2 (x : Q) : Z :=
  let k := (Z.log2 (Z.abs (Qnum x)) - Z.log2 (Zpos (Qden x)))%Z in
  if Qle_bool (2 ^ k) (Qabs x) then k else (k - 1)%Z.

(** The exponent of the last place of the doubles around [x]: 52 binary
    places below the leading digit (a 53-bit significand), and never
    below that of the least subnormal, [2 ** -1074]. *)
Definition ulp_exponent (x : Q) : Z := Z.max (ilog2 x - 52) (-1074).

(** The double nearest to [x], ties to the even significand.  A result of
    magnitude [2 ** 1024] or more stands for an infinity: it is above
    (below) every finite double, as the infinity is. *)
Definition fl (x : Q) : Q :=
  let e := ulp_exponent x in
  Qred (inject_Z (round_half_even (x / 2 ^ e)) * 2 ^ e).

(** [x * y] and [x / y] on doubles ([y] not zero). *)
Definition mul (x y : Q) : Q := fl (x * y).
Definition div (x y : Q) : Q := fl (x / y).

End F64.

(** ** Wall-clock time: [datetime.now()] *)

Record datetime := mk_datetime {
  year : Z; month : Z; day : Z;
  hour : Z; minute : Z; second : Z;
  microsecond : Z
}.

(** ** Readings: one row of the telemetry frame *)

Record Reading := mk_Reading {
  Timestamp : datetime;
  Engine_Coolant_Temperature : Q;
  Intake_Manifold_Abs_Pressure : Q;
  Engine_RPM : Q;
  Vehicle_Speed : Q;
  Intake_Air_Temperature : Q;
  AirFlow_Rate : Q;
  Throttle_Position : Q;
  Air_Temperature : Q;
  Acc_Pedal_Pos_D : Q;
  Acc_Pedal_Pos_E : Q
}.

(** ** Cause explanation logic *)

Definition cause_overheating : string := "Overheating (Coolant Temp > 100°C)".
Definition cause_stall : string := "RPM too low for throttle → possible stall".
Definition cause_blockage : string := "High manifold pressure → possible blockage".
Definition cause_intake : string := "Abnormal intake air temperature".
Definition cause_gear : string :=
  "Pedal pressed but vehicle not moving → possible gear issue".

(** The tags in rule order. *)
Definition cause_order : list string :=
  [cause_overheating; cause_stall; cause_blockage; cause_intake; cause_gear].

(** [causes.append(tag)] guarded by [if cond:]. *)
Definition append_if (cond : bool) (tag : string) (causes : list string)
  : list string :=
  if cond then causes ++ [tag] else causes.

Definition get_causes (row : Reading) : list string :=
  let factor : Q := 70%Q in
  let causes : list string := [] in
  let causes :=
    if (Vehicle_Speed row >? 1)%Q then
      let causes :=
        append_if (Engine_Coolant_Temperature row >? 100)%Q
                  cause_overheating causes in
      let causes :=
        append_if ((Throttle_Position row <? 70)%Q
                   && (Engine_RPM row
                       <? F64.mul (Throttle_Position row) factor)%Q)
                  cause_stall causes in
      let causes :=
        append_if (Intake_Manifold_Abs_Pressure row >? 220)%Q
                  cause_blockage causes in
      let causes :=
        append_if ((Intake_Air_Temperature row >? 120)%Q
                   || (Intake_Air_Temperature row <? -20)%Q)
                  cause_intake causes in
      causes
    else causes in
  let causes :=
    append_if ((Acc_Pedal_Pos_D row >? 30)%Q && (Vehicle_Speed row <? 5)%Q)
              cause_gear causes in
  causes.

(** [main_cause = causes[0] if causes else "None"] *)
Definition main_cause_of (causes : list string) : string :=
  match causes with
  | [] => "None"
  | c :: _ => c
  end.


(** ** Built-ins: [int], [round] *)

(** [int(x)]: truncation towards zero. *)
Definition py_int (x : Q) : Z := Z.quot (Qnum x) (Zpos (Qden x)).

(** [round(x, ndigits)] for a [numpy.float64] [x] and [ndigits > 0]:
    [x.__round__] scales by the double [10 ** ndigits] (exact up to
    [10 ** 22]), rounds to the nearest integer and scales back, each step
    in double arithmetic. *)
Definition py_round (x : Q) (ndigits : nat) : Q :=
  let f := inject_Z (10 ^ Z.of_nat ndigits) in
  F64.div (inject_Z (round_half_even (F64.mul x f))) f.

(** "Rounded to [ndigits] decimal places", as a number: the nearest
    multiple of [10 ** -ndigits], ties to even. *)
Definition round_decimal (x : Q) (ndigits : nat) : Q :=
  let scale := (10 ^ Z.of_nat ndigits)%Z in
  Qmake (round_half_even (x * inject_Z scale)) (Z.to_pos scale).

(** ** [strftime("%Y-%m-%d_%H-%M-%S")] and paths *)

Definition digit (d : Z) : ascii := ascii_of_N (Z.to_N (48 + d)).

(** The [width] low-order decimal digits of [n], most significant first:
    zero-padded decimal for [0 <= n < 10 ^ width]. *)
Fixpoint zpad (width : nat) (n : Z) : string :=
  match width with
  | O => ""
  | S w => String (digit ((n / 10 ^ Z.of_nat w) mod 10)) (zpad w n)
  end.

Definition strftime (t : datetime) : string :=
  zpad 4 (year t) ++ "-" ++ zpad 2 (month t) ++ "-" ++ zpad 2 (day t)
  ++ "_" ++ zpad 2 (hour t) ++ "-" ++ zpad 2 (minute t)
  ++ "-" ++ zpad 2 (second t).

Definition starts_with_sep (s : string) : bool :=
  match s with
  | String c _ => Ascii.eqb c "/"
  | EmptyString => false
  end.

Fixpoint ends_with_sep (s : string) : bool :=
  match s with
  | EmptyString => false
  | String c EmptyString => Ascii.eqb c "/"
  | String _ s' => ends_with_sep s'
  end.

(** [os.path.join(a, b)] (POSIX). *)
Definition path_join (a b : string) : string :=
  if starts_with_sep b then b
  else if String.eqb a "" || ends_with_sep a then a ++ b
  else a ++ "/" ++ b.

(** [f"logs/{vehicle_selected}"] *)
Definition log_folder_of (vehicle_selected : string) : string :=
  "logs/" ++ vehicle_selected.

(** [f"{today}_log.csv"] *)
Definition log_name (today : string) : string := today ++ "_log.csv".

(** The path a flush at time [t] writes to. *)
Definition log_path_of (vehicle_selected : string) (t : datetime) : string :=
  path_join (log_folder_of vehicle_selected) (log_name (strftime t)).

(** ** Vehicles and drivers *)

Definition vehicle_ids : list string :=
  ["KA-01"; "KA-02"; "KA-03"; "KA-04"; "KA-05"].

Definition driver_mapping : gmap string string :=
  <["KA-01" := "Rishab"]> (<["KA-02" := "Priya"]> (<["KA-03" := "Arjun"]>
  (<["KA-04" := "Sneha"]> (<["KA-05" := "Ravi"]> ∅)))).

(** [row[features]]: the classifier's input, in the order of [features]. *)
Definition features (row : Reading) : list Q :=
  [Engine_Coolant_Temperature row; Intake_Manifold_Abs_Pressure row;
   Engine_RPM row; Vehicle_Speed row; Intake_Air_Temperature row;
   AirFlow_Rate row; Throttle_Position row; Air_Temperature row;
   Acc_Pedal_Pos_D row; Acc_Pedal_Pos_E row].

(** ** Enriched records and the world the script runs in *)

(** [row_log]: the reading's own columns plus the six keys the loop adds. *)
Record row_log := mk_row_log {
  reading : Reading;
  timestamp : datetime;
  vehicle_id : string;
  driver : string;
  prediction : Z;
  probability : Q;
  breakdown_cause : string
}.

(** What the placeholder shows after a reading. *)
Record notice := mk_notice {
  shown_prediction : string;
  shown_warning : bool;
  shown_causes : list string
}.

(** The loaded model: [None] is a raised exception. *)
Record classifier := mk_classifier {
  predict : list Q -> option (list Q);
  predict_proba : list Q -> option (list (list Q))
}.

(** [st.session_state]: a key is absent until the script first sets it. *)
Record session_state := mk_session_state {
  running : option bool;
  log_data : option (list row_log)
}.

(** Directories and CSV files by path; a file holds its rows in order. *)
Record filesystem := mk_filesystem {
  fs_dirs : gset string;
  fs_files : gmap string (list row_log)
}.

Record world := mk_world {
  session : session_state;
  fs : filesystem;
  clock : nat -> datetime;      (* what successive [datetime.now()] return *)
  tick : nat;                   (* how many have been taken *)
  disk_free : option nat;       (* rows the device still accepts; None: no limit *)
  placeholder : option notice
}.

Inductive exn :=
| ClassifierError | IndexError | KeyError | AttributeError | OSError.

(** How a piece of the script ends: normally, by [st.rerun()], or by an
    exception nothing in the script catches. *)
Inductive outcome (A : Type) :=
| Done (a : A)
| Rerun
| Raise (e : exn).
Arguments Done {A} a.
Arguments Rerun {A}.
Arguments Raise {A} e.

Definition M (A : Type) : Type := world -> outcome A * world.

#[global] Instance M_ret : MRet M := fun A a w => (Done a, w).

#[global] Instance M_bind : MBind M := fun A B k m w =>
  match m w with
  | (Done a, w') => k a w'
  | (Rerun, w') => (Rerun, w')
  | (Raise e, w') => (Raise e, w')
  end.

Definition raise {A} (e : exn) : M A := fun w => (Raise e, w).
Definition st_rerun {A} : M A := fun w => (Rerun, w).

Definition skip : M unit := mret tt.

(** A call into a library that may raise. *)
Definition call {A} (e : exn) (r : option A) : M A :=
  match r with
  | Some a => mret a
  | None => raise e
  end.

(** [xs[i]] *)
Definition index {A} (xs : list A) (i : nat) : M A := call IndexError (xs !! i).

Definition set_session (s : session_state) (w : world) : world :=
  mk_world s (fs w) (clock w) (tick w) (disk_free w) (placeholder w).

Definition get_running : M bool := fun w =>
  call AttributeError (running (session w)) w.
Definition set_running (b : bool) : M unit := fun w =>
  (Done tt, set_session (mk_session_state (Some b) (log_data (session w))) w).
Definition get_log_data : M (list row_log) := fun w =>
  call AttributeError (log_data (session w)) w.
Definition set_log_data (l : list row_log) : M unit := fun w =>
  (Done tt, set_session (mk_session_state (running (session w)) (Some l)) w).

(** [st.session_state.log_data.append(row_log)] *)
Definition append_log (r : row_log) : M unit :=
  l ← get_log_data; set_log_data (l ++ [r]).

Definition datetime_now : M datetime := fun w =>
  (Done (clock w (tick w)),
   mk_world (session w) (fs w) (clock w) (S (tick w)) (disk_free w)
            (placeholder w)).

Definition show (n : notice) : M unit := fun w =>
  (Done tt,
   mk_world (session w) (fs w) (clock w) (tick w) (disk_free w) (Some n)).


(** ** The file system calls the script makes *)

Definition set_fs (f : filesystem) (free : option nat) (w : world) : world :=
  mk_world (session w) f (clock w) (tick w) free (placeholder w).

(** [p] and its ancestors: what [os.makedirs(p)] makes sure exist. *)
Fixpoint path_prefixes (acc p : string) : list string :=
  match p with
  | EmptyString => [acc]
  | String c p' =>
      if Ascii.eqb c "/" then acc :: path_prefixes (acc ++ "/") p'
      else path_prefixes (acc ++ String c "") p'
  end.

(** [os.makedirs(p, exist_ok=True)]: directories already there are kept. *)
Definition os_makedirs (p : string) : M unit := fun w =>
  (Done tt,
   set_fs (mk_filesystem (fs_dirs (fs w) ∪ list_to_set (path_prefixes "" p))
                         (fs_files (fs w)))
          (disk_free w) w).

(** [log_df.to_csv(path, index=False)]: the file at [path] itself is
    opened for writing, which empties it, and the rows are written to it
    in order; when the device fills up the call raises and the rows
    written so far stay in the file. *)
Definition to_csv (path : string) (log_df : list row_log) : M unit := fun w =>
  let put rows :=
    mk_filesystem (fs_dirs (fs w)) (<[path := rows]> (fs_files (fs w))) in
  match disk_free w with
  | None => (Done tt, set_fs (put log_df) None w)
  | Some k =>
      if (length log_df <=? k)%nat
      then (Done tt, set_fs (put log_df) (Some (k - length log_df)%nat) w)
      else (Raise OSError, set_fs (put (take k log_df)) (Some O) w)
  end.

(** [os.path.exists(p)] *)
Definition os_path_exists (p : string) : M bool := fun w =>
  (Done (bool_decide (p ∈ fs_dirs (fs w))
         || bool_decide (is_Some (fs_files (fs w) !! p))), w).

Fixpoint strip_prefix (pre s : string) : option string :=
  match pre, s with
  | EmptyString, _ => Some s
  | String a pre', String b s' =>
      if Ascii.eqb a b then strip_prefix pre' s' else None
  | String _ _, EmptyString => None
  end.

Fixpoint has_sep (s : string) : bool :=
  match s with
  | EmptyString => false
  | String c s' => Ascii.eqb c "/" || has_sep s'
  end.

(** The name under which [p] is listed in [folder], if it lies directly
    in it. *)
Definition entry_of (folder p : string) : option string :=
  match strip_prefix (folder ++ "/") p with
  | Some name =>
      if String.eqb name "" || has_sep name then None else Some name
  | None => None
  end.

(** The names of the files and directories lying directly in [folder]. *)
Definition listing (folder : string) (f : filesystem) : list string :=
  omap (entry_of folder) (elements (dom (fs_files f) ∪ fs_dirs f)).

(** [os.listdir(folder)]: the entries, in no particular order. *)
Definition os_listdir (folder : string) : M (list string) := fun w =>
  if bool_decide (folder ∈ fs_dirs (fs w)) then
    (Done (listing folder (fs w)), w)
  else (Raise OSError, w).

(** [pd.read_csv(path)] *)
Definition read_csv (path : string) : M (list row_log) := fun w =>
  call OSError (fs_files (fs w) !! path) w.

(** ** [sorted(names, reverse=True)] *)

Fixpoint insert_desc (x : string) (l : list string) : list string :=
  match l with
  | [] => [x]
  | y :: l' => if String.ltb x y then y :: insert_desc x l' else x :: l
  end.

Definition sorted_reverse (l : list string) : list string :=
  foldr insert_desc [] l.

(** ** Dashboard page *)

Inductive dashboard_view :=
| NoLogsFound                       (* "No logs found for this vehicle." *)
| NoLogFiles                        (* "No log files found." *)
| Loaded (latest_file : string) (total_records : nat) (breakdown_events : Z).

Definition dashboard (vehicle_selected : string) : M dashboard_view :=
  let folder := log_folder_of vehicle_selected in
  present ← os_path_exists folder;
  if negb present then mret NoLogsFound
  else
    names ← os_listdir folder;
    let files := sorted_reverse names in
    match files with
    | first :: _ =>
        let latest_file := path_join folder first in
        log_df ← read_csv latest_file;
        mret (Loaded latest_file (length log_df)
                     (foldr Z.add 0%Z (prediction <$> log_df)))
    | [] => mret NoLogFiles
    end.

(** ** Live Monitoring page *)

(** [base_df.head(15000)] *)
Definition replay_limit : nat := N.to_nat 15000.

(** The two [if ... not in st.session_state] initialisations. *)
Definition init_session : M unit := fun w =>
  let s := session w in
  (Done tt,
   set_session
     (mk_session_state
        (Some (default false (running s)))
        (Some (default [] (log_data s)))) w).

(** The flush of the session buffer, as written out under the Stop button
    and again after the loop. *)
Definition flush_log (vehicle_selected : string) : M unit :=
  buffer ← get_log_data;
  match buffer with
  | [] => skip
  | _ :: _ =>
      let log_df := buffer in
      now ← datetime_now;
      let today := strftime now in
      let log_folder := log_folder_of vehicle_selected in
      os_makedirs log_folder;;
      let log_path := path_join log_folder (log_name today) in
      to_csv log_path log_df
  end.

(** The body of the [for] loop for one row. *)
Definition process_row (model : classifier)
    (vehicle_selected driver_name : string) (row : Reading) : M unit :=
  let input_data := features row in
  preds ← call ClassifierError (predict model input_data);
  pred ← index preds 0;
  probas ← call ClassifierError (predict_proba model input_data);
  proba ← index probas 0;
  prob ← index proba 1;
  let causes := get_causes row in
  let main_cause := main_cause_of causes in
  now ← datetime_now;
  append_log
    {| reading := row;
       timestamp := now;
       vehicle_id := vehicle_selected;
       driver := driver_name;
       prediction := py_int pred;
       probability := py_round prob 4;
       breakdown_cause := main_cause |};;
  let breakdown := Qeq_bool pred 1 in
  show
    {| shown_prediction := if breakdown then "Breakdown" else "Normal";
       shown_warning := breakdown || negb (bool_decide (causes = []));
       shown_causes := causes |}.

(** [for i, row in df.iterrows(): if not running: break; ...] *)
Fixpoint monitor_loop (model : classifier)
    (vehicle_selected driver_name : string) (df : list Reading) : M unit :=
  match df with
  | [] => skip
  | row :: rest =>
      r ← get_running;
      if negb r then skip
      else
        process_row model vehicle_selected driver_name row;;
        monitor_loop model vehicle_selected driver_name rest
  end.

(** One run of the page; [button] tells whether the button this run
    renders (Start when idle, Stop when running) was the one clicked. *)
Definition live_monitoring (model : classifier) (base_df : list Reading)
    (vehicle_selected driver_name : string) (button : bool) : M unit :=
  init_session;;
  r ← get_running;
  ((if negb r then
     if button then set_running true;; set_log_data [];; st_rerun
     else skip
   else
     if button then
       set_running false;; flush_log vehicle_selected;; st_rerun
     else skip) : M unit);;
  let df := take replay_limit base_df in
  running_now ← get_running;
  if running_now : bool then
    monitor_loop model vehicle_selected driver_name df;;
    still_running ← get_running;
    if still_running : bool then
      set_running false;; flush_log vehicle_selected
    else skip
  else skip.

(** ** The script *)

Inductive page := Dashboard | LiveMonitoring.

Inductive page_view :=
| DashboardView (v : dashboard_view)
| LiveView.

Definition script (model : classifier) (base_df : list Reading)
    (pg : page) (vehicle_selected : string) (button : bool) : M page_view :=
  os_makedirs "logs";;
  driver_name ← call KeyError (driver_mapping !! vehicle_selected);
  match pg with
  | Dashboard => v ← dashboard vehicle_selected; mret (DashboardView v)
  | LiveMonitoring =>
      live_monitoring model base_df vehicle_selected driver_name button;;
      mret LiveView
  end.


(** One user interaction: the script runs with the click, and an
    [st.rerun()] makes it run once more from the top, without a click. *)
Definition interact (model : classifier) (base_df : list Reading)
    (pg : page) (vehicle_selected : string) (button : bool) : M page_view :=
  fun w =>
    match script model base_df pg vehicle_selected button w with
    | (Rerun, w') => script model base_df pg vehicle_selected false w'
    | r => r
    end.

(** ** Vocabulary of the statements *)

(** What the two classifier calls of [process_row] yield for a row:
    [predict(...)[0]] and [predict_proba(...)[0][1]], or [None] when one
    of them raises. *)
Definition classify (model : classifier) (row : Reading) : option (Q * Q) :=
  preds ← predict model (features row);
  pred ← preds !! 0%nat;
  probas ← predict_proba model (features row);
  proba ← probas !! 0%nat;
  prob ← proba !! 1%nat;
  Some (pred, prob).

(** The classifier answers on [row]. *)
Definition classified (model : classifier) (row : Reading) : Prop :=
  is_Some (classify model row).

(** The record [process_row] appends for [row], given the classifier's
    answers and the time. *)
Definition enriched (vehicle_selected driver_name : string) (row : Reading)
    (pred prob : Q) (now : datetime) : row_log :=
  {| reading := row;
     timestamp := now;
     vehicle_id := vehicle_selected;
     driver := driver_name;
     prediction := py_int pred;
     probability := py_round prob 4;
     breakdown_cause := main_cause_of (get_causes row) |}.

(** The records a pass over [df] appends while the classifier answers,
    the first of them stamped with the clock's reading number [n]. *)
Fixpoint pass_records (model : classifier) (vehicle_selected driver_name : string)
    (clk : nat -> datetime) (n : nat) (df : list Reading) : list row_log :=
  match df with
  | [] => []
  | row :: rest =>
      match classify model row with
      | Some (pred, prob) =>
          enriched vehicle_selected driver_name row pred prob (clk n)
          :: pass_records model vehicle_selected driver_name clk (S n) rest
      | None => []
      end
  end.

(** The classifier's contract on a row: it answers, with a label in
    {0, 1} and a class-1 probability in [0, 1]. *)
Definition classifier_ok (model : classifier) (row : Reading) : Prop :=
  exists pred prob,
    classify model row = Some (pred, prob)
    /\ (pred == 0 \/ pred == 1)%Q /\ (0 <= prob <= 1)%Q.

(** The ranges of the fields of a [datetime], with a four-digit year. *)
Definition stamp_ok (t : datetime) : Prop :=
  (1000 <= year t <= 9999 /\ 1 <= month t <= 12 /\ 1 <= day t <= 31
   /\ 0 <= hour t < 24 /\ 0 <= minute t < 60 /\ 0 <= second t < 60
   /\ 0 <= microsecond t < 1000000)%Z.

(** Comparison of comparisons: the first difference decides. *)
Definition lex (c d : comparison) : comparison :=
  match c with Eq => d | _ => c end.

(** Order of two times down to the second: what the file name keeps. *)
Definition stamp_compare (t1 t2 : datetime) : comparison :=
  lex (year t1 ?= year t2)%Z (lex (month t1 ?= month t2)%Z
  (lex (day t1 ?= day t2)%Z (lex (hour t1 ?= hour t2)%Z
  (lex (minute t1 ?= minute t2)%Z (second t1 ?= second t2)%Z)))).

(** Order of two times: [t1 < t2] etc. on [datetime] objects. *)
Definition datetime_compare (t1 t2 : datetime) : comparison :=
  lex (stamp_compare t1 t2) (microsecond t1 ?= microsecond t2)%Z.

Definition datetime_le (t1 t2 : datetime) : Prop :=
  datetime_compare t1 t2 <> Gt.

(** Two times in the same second. *)
Definition same_second (t1 t2 : datetime) : Prop :=
  year t1 = year t2 /\ month t1 = month t2 /\ day t1 = day t2
  /\ hour t1 = hour t2 /\ minute t1 = minute t2 /\ second t1 = second t2.


(** The reading of the spec's scenario; the fields the scenario leaves
    open are parameters. *)
Definition scenario_reading (ts : datetime) (airflow air_temp pedal_E : Q)
  : Reading :=
  {| Timestamp := ts;
     Engine_Coolant_Temperature := 105;
     Intake_Manifold_Abs_Pressure := 200;
     Engine_RPM := 1000;
     Vehicle_Speed := 60;
     Intake_Air_Temperature := 30;
     AirFlow_Rate := airflow;
     Throttle_Position := 50;
     Air_Temperature := air_temp;
     Acc_Pedal_Pos_D := 0;
     Acc_Pedal_Pos_E := pedal_E |}.

(** A classifier that raises on a coolant temperature below absolute
    zero. *)
Definition picky_model : classifier :=
  mk_classifier
    (fun x => match x with
              | coolant :: _ =>
                  if Qle_bool (-273) coolant then Some [0%Q] else None
              | [] => None
              end)
    (fun _ => Some [[(3#4)%Q; (1#4)%Q]]).

(** A world whose KA-01 folder holds two logs, flushed at 09:59:58 and at
    10:00:03. *)
Definition two_logs : world :=
  let row := scenario_reading (mk_datetime 2024 3 7 9 5 1 0) 0 0 0 in
  let t1 := mk_datetime 2024 3 7 9 59 58 0 in
  let t2 := mk_datetime 2024 3 7 10 0 3 0 in
  let r1 := enriched "KA-01" "Rishab" row 1 (3#4) t1 in
  let r2 := enriched "KA-01" "Rishab" row 0 (1#4) t2 in
  mk_world (mk_session_state (Some false) (Some []))
           (mk_filesystem
              (list_to_set ["logs"; "logs/KA-01"])
              (<[log_path_of "KA-01" t1 := [r1; r1]]>
                 (<[log_path_of "KA-01" t2 := [r2]]> ∅)))
           (fun n => mk_datetime 2024 3 7 11 0 (Z.of_nat n) 0)
           0 None None.

(** What a piece of the script leaves alone: storage, the disk, the
    clock and the running flag; the buffer may only grow at its end. *)
Definition keeps_store (w w' : world) : Prop :=
  fs w' = fs w /\ disk_free w' = disk_free w /\ clock w' = clock w
  /\ running (session w') = running (session w)
  /\ forall buf, log_data (session w) = Some buf ->
       exists new, log_data (session w') = Some (buf ++ new).

(** * Properties *)

(** ** Comparisons *)

Lemma ltb_lt a b : PyNum.ltb a b = true <-> (a < b)%Q.
Proof.
  unfold PyNum.ltb. rewrite negb_true_iff, <- not_true_iff_false, Qle_bool_iff.
  split; [apply Qnot_le_lt | apply Qlt_not_le].
Qed.

Lemma gtb_lt a b : PyNum.gtb a b = true <-> (b < a)%Q.
Proof. apply ltb_lt. Qed.

Lemma gtb_le a b : (a <= b)%Q -> PyNum.gtb a b = false.
Proof.
  intros H. unfold PyNum.gtb. apply negb_false_iff. now apply Qle_bool_iff.
Qed.

(** ** The cause rules *)

Lemma get_causes_in_rule_order (row : Reading) :
  get_causes row `sublist_of` cause_order.
Proof.
  unfold get_causes, append_if.
  repeat match goal with
         | |- context [if ?b then _ else _] => destruct b
         end;
    simpl; unfold cause_order;
    repeat first [apply sublist_nil | apply sublist_skip | apply sublist_cons].
Qed.

(** C1. A reading whose speed is at most 1 and whose accelerator
    position D is at most 30 gets no cause tag: [get_causes] returns the
    empty list. *)
Theorem get_causes_idle_empty (row : Reading) :
  (Vehicle_Speed row <= 1)%Q ->
  (Acc_Pedal_Pos_D row <= 30)%Q ->
  get_causes row = [].
Proof.
  intros Hspeed Hpedal. unfold get_causes, append_if.
  rewrite (gtb_le _ _ Hspeed), (gtb_le _ _ Hpedal). reflexivity.
Qed.

Lemma get_causes_idle_empty_witness :
  let row := mk_Reading (mk_datetime 2024 3 7 9 5 1 0)
                        90 101 800 1 25 3 12 20 30 0 in
  (Vehicle_Speed row <= 1)%Q /\ (Acc_Pedal_Pos_D row <= 30)%Q
  /\ get_causes row = [].
Proof.
  intros row.
  assert (Hs : (Vehicle_Speed row <= 1)%Q) by (unfold Qle; simpl; lia).
  assert (Hp : (Acc_Pedal_Pos_D row <= 30)%Q) by (unfold Qle; simpl; lia).
  exact (conj Hs (conj Hp (get_causes_idle_empty row Hs Hp))).
Defined.

(** C2, as the spec words it, fails on the code: the tags the rules
    append carry more text than "Overheating" and "RPM too low for
    throttle (possible stall)". *)
Lemma scenario_tags_differ :
  let row := scenario_reading (mk_datetime 2024 3 7 9 5 1 0) 0 0 0 in
  get_causes row
    <> ["Overheating"; "RPM too low for throttle (possible stall)"]
  /\ main_cause_of (get_causes row) <> "Overheating".
Proof. split; intros H; vm_compute in H; discriminate H. Qed.

(** C2 (amended). For the scenario reading (speed 60, coolant 105,
    throttle 50, rpm 1000, manifold pressure 200, intake air 30, pedal D
    0) [get_causes] returns exactly the overheating tag followed by the
    stall tag, with the texts the code gives them, and the primary cause
    is the overheating tag. *)
Theorem scenario_causes (ts : datetime) (airflow air_temp pedal_E : Q) :
  let row := scenario_reading ts airflow air_temp pedal_E in
  get_causes row
    = ["Overheating (Coolant Temp > 100°C)";
       "RPM too low for throttle → possible stall"]
  /\ main_cause_of (get_causes row) = "Overheating (Coolant Temp > 100°C)".
Proof. split; reflexivity. Qed.

(** ** One row of the loop *)

Lemma bind_done {A B} (m : M A) (k : A -> M B) w a w' :
  m w = (Done a, w') -> (m ≫= k) w = k a w'.
Proof. intros H. unfold mbind, M_bind. now rewrite H. Qed.

Lemma bind_raise {A B} (m : M A) (k : A -> M B) w e w' :
  m w = (Raise e, w') -> (m ≫= k) w = (Raise e, w').
Proof. intros H. unfold mbind, M_bind. now rewrite H. Qed.

Lemma process_row_done model v d row w pred prob buf :
  classify model row = Some (pred, prob) ->
  log_data (session w) = Some buf ->
  process_row model v d row w =
    (Done tt,
     mk_world
       (mk_session_state (running (session w))
          (Some (buf ++ [enriched v d row pred prob (clock w (tick w))])))
       (fs w) (clock w) (S (tick w)) (disk_free w)
       (Some {| shown_prediction :=
                  if Qeq_bool pred 1 then "Breakdown" else "Normal";
                shown_warning :=
                  Qeq_bool pred 1 || negb (bool_decide (get_causes row = []));
                shown_causes := get_causes row |})).
Proof.
  intros Hc Hbuf. unfold classify in Hc. unfold process_row.
  destruct (predict model (features row)) as [preds|]; [|discriminate].
  simpl in Hc. destruct (preds !! 0%nat) as [pred'|] eqn:E0; [|discriminate].
  simpl in Hc.
  destruct (predict_proba model (features row)) as [probas|]; [|discriminate].
  simpl in Hc. destruct (probas !! 0%nat) as [proba|] eqn:E1; [|discriminate].
  simpl in Hc. destruct (proba !! 1%nat) as [prob'|] eqn:E2; [|discriminate].
  simpl in Hc. injection Hc as -> ->.
  unfold index, call, append_log, get_log_data, set_log_data, datetime_now,
    show, set_session, mbind, M_bind, mret, M_ret, call.
  rewrite E0, E1, E2. simpl. rewrite Hbuf. reflexivity.
Qed.

Lemma process_row_raise model v d row w :
  classify model row = None ->
  exists e, process_row model v d row w = (Raise e, w).
Proof.
  intros Hc. unfold classify in Hc. unfold process_row.
  unfold index, call, mbind, M_bind, mret, M_ret, raise.
  destruct (predict model (features row)) as [preds|]; [|eauto].
  simpl in Hc. destruct (preds !! 0%nat) as [pred'|] eqn:E0; [|eauto].
  simpl in Hc.
  destruct (predict_proba model (features row)) as [probas|]; [|eauto].
  simpl in Hc. destruct (probas !! 0%nat) as [proba|] eqn:E1; [|eauto].
  simpl in Hc. destruct (proba !! 1%nat) as [prob'|] eqn:E2; [|eauto].
  discriminate.
Qed.

(** ** The loop *)

Lemma pass_records_length model v d clk n df :
  Forall (classified model) df ->
  length (pass_records model v d clk n df) = length df.
Proof.
  intros H. revert n. induction H as [|row rest [[pred prob] Hc] _ IH];
    intros n; simpl; [reflexivity|].
  rewrite Hc. simpl. now rewrite IH.
Qed.

Lemma pass_records_app_fail model v d clk n pre bad post :
  Forall (classified model) pre ->
  classify model bad = None ->
  pass_records model v d clk n (pre ++ bad :: post)
  = pass_records model v d clk n pre.
Proof.
  intros H Hbad. revert n. induction H as [|row rest [[pred prob] Hc] _ IH];
    intros n; simpl.
  - now rewrite Hbad.
  - rewrite Hc. now rewrite IH.
Qed.

Lemma monitor_loop_done model v d df : forall w buf,
  running (session w) = Some true ->
  log_data (session w) = Some buf ->
  Forall (classified model) df ->
  exists shown,
    monitor_loop model v d df w =
      (Done tt,
       mk_world
         (mk_session_state (Some true)
            (Some (buf ++ pass_records model v d (clock w) (tick w) df)))
         (fs w) (clock w) (tick w + length df) (disk_free w) shown).
Proof.
  induction df as [|row rest IH]; intros w buf Hrun Hbuf Hall.
  - exists (placeholder w). destruct w as [[r l] f c t q p]; simpl in *.
    subst. rewrite app_nil_r, Nat.add_0_r. reflexivity.
  - inversion Hall as [|? ? [[pred prob] Hc] Hrest]; subst.
    simpl. unfold get_running at 1.
    erewrite bind_done by (rewrite Hrun; reflexivity). simpl.
    erewrite bind_done by (eapply process_row_done; eauto).
    edestruct (IH (mk_world
       (mk_session_state (running (session w))
          (Some (buf ++ [enriched v d row pred prob (clock w (tick w))])))
       (fs w) (clock w) (S (tick w)) (disk_free w)
       (Some {| shown_prediction :=
                  if Qeq_bool pred 1 then "Breakdown" else "Normal";
                shown_warning :=
                  Qeq_bool pred 1 || negb (bool_decide (get_causes row = []));
                shown_causes := get_causes row |}))) as [shown Hloop];
      [exact Hrun | reflexivity | exact Hrest |].
    exists shown. rewrite Hloop. simpl. rewrite Hc, <- app_assoc. simpl.
    repeat f_equal. lia.
Qed.

Lemma monitor_loop_raise model v d pre bad post : forall w buf,
  running (session w) = Some true ->
  log_data (session w) = Some buf ->
  Forall (classified model) pre ->
  classify model bad = None ->
  exists e shown,
    monitor_loop model v d (pre ++ bad :: post) w =
      (Raise e,
       mk_world
         (mk_session_state (Some true)
            (Some (buf ++ pass_records model v d (clock w) (tick w) pre)))
         (fs w) (clock w) (tick w + length pre) (disk_free w) shown).
Proof.
  induction pre as [|row rest IH]; intros w buf Hrun Hbuf Hall Hbad.
  - destruct (process_row_raise model v d bad w Hbad) as [e He].
    exists e, (placeholder w). simpl. unfold get_running at 1.
    erewrite bind_done by (rewrite Hrun; reflexivity). simpl.
    erewrite bind_raise by exact He.
    destruct w as [[r l] f c t q p]; simpl in *.
    subst. rewrite app_nil_r, Nat.add_0_r. reflexivity.
  - inversion Hall as [|? ? [[pred prob] Hc] Hrest]; subst.
    simpl. unfold get_running at 1.
    erewrite bind_done by (rewrite Hrun; reflexivity). simpl.
    erewrite bind_done by (eapply process_row_done; eauto).
    edestruct (IH (mk_world
       (mk_session_state (running (session w))
          (Some (buf ++ [enriched v d row pred prob (clock w (tick w))])))
       (fs w) (clock w) (S (tick w)) (disk_free w)
       (Some {| shown_prediction :=
                  if Qeq_bool pred 1 then "Breakdown" else "Normal";
                shown_warning :=
                  Qeq_bool pred 1 || negb (bool_decide (get_causes row = []));
                shown_causes := get_causes row |}))) as (e & shown & Hloop);
      [exact Hrun | reflexivity | exact Hrest | exact Hbad |].
    exists e, shown. rewrite Hloop. simpl. rewrite Hc, <- app_assoc. simpl.
    repeat f_equal. lia.
Qed.

(** ** The pages *)

Lemma session_eta w r l :
  running (session w) = Some r -> log_data (session w) = Some l ->
  init_session w = (Done tt, w).
Proof.
  intros Hr Hl. destruct w as [[r' l'] f c t q p]; simpl in *; subst.
  reflexivity.
Qed.

Lemma makedirs_logs_present w :
  "logs" ∈ fs_dirs (fs w) -> os_makedirs "logs" w = (Done tt, w).
Proof.
  intros Hin. destruct w as [s [dirs files] c t q p]; simpl in *.
  unfold os_makedirs, set_fs.
  cbn [fs fs_dirs fs_files session clock tick disk_free placeholder].
  assert (E : dirs ∪ list_to_set (path_prefixes "" "logs") = dirs).
  { apply set_eq. intros x. simpl.
    rewrite !elem_of_union, elem_of_singleton, elem_of_empty.
    split; [intros [?|[->|[]]]; assumption | intros ?; now left]. }
  rewrite E. reflexivity.
Qed.

Lemma driver_known v :
  v ∈ vehicle_ids -> exists d, driver_mapping !! v = Some d.
Proof.
  unfold vehicle_ids. rewrite !elem_of_cons, elem_of_nil.
  intros [->|[->|[->|[->|[->|[]]]]]]; eexists; vm_compute; reflexivity.
Qed.

(** The Live Monitoring script as its page after the two preamble steps. *)
Lemma script_live model base_df v d button w :
  driver_mapping !! v = Some d ->
  script model base_df LiveMonitoring v button w =
    match live_monitoring model base_df v d button
            (snd (os_makedirs "logs" w)) with
    | (Done _, w') => (Done LiveView, w')
    | (Rerun, w') => (Rerun, w')
    | (Raise e, w') => (Raise e, w')
    end.
Proof.
  intros Hd. unfold script. unfold mbind at 1, M_bind at 1. simpl.
  unfold mbind at 1, M_bind at 1. rewrite Hd. simpl.
  unfold mbind at 1, M_bind at 1.
  destruct (live_monitoring _ _ _ _ _ _) as [[[]| |e] w']; reflexivity.
Qed.

Lemma flush_log_empty v w :
  log_data (session w) = Some [] -> flush_log v w = (Done tt, w).
Proof.
  intros Hl. unfold flush_log.
  erewrite bind_done by (unfold get_log_data; rewrite Hl; reflexivity).
  reflexivity.
Qed.

Lemma flush_log_rows v w buf :
  log_data (session w) = Some buf -> buf <> [] ->
  flush_log v w =
    to_csv (log_path_of v (clock w (tick w))) buf
      (snd (os_makedirs (log_folder_of v) (snd (datetime_now w)))).
Proof.
  intros Hl Hne. unfold flush_log.
  erewrite bind_done by (unfold get_log_data; rewrite Hl; reflexivity).
  destruct buf as [|r buf]; [congruence|]. reflexivity.
Qed.

Lemma live_start model base_df v d w :
  running (session w) <> Some true ->
  live_monitoring model base_df v d true w =
    (Rerun, set_session (mk_session_state (Some true) (Some [])) w).
Proof.
  intros Hr. destruct w as [[r l] f c t q p]; simpl in *.
  destruct r as [[]|]; try congruence; reflexivity.
Qed.

Lemma live_stop model base_df v d w buf :
  running (session w) = Some true ->
  log_data (session w) = Some buf ->
  live_monitoring model base_df v d true w =
    match flush_log v
            (set_session (mk_session_state (Some false) (Some buf)) w) with
    | (Done _, w') => (Rerun, w')
    | (Rerun, w') => (Rerun, w')
    | (Raise e, w') => (Raise e, w')
    end.
Proof.
  intros Hr Hl. unfold live_monitoring.
  erewrite bind_done by (eapply session_eta; eauto).
  erewrite bind_done by (unfold get_running; rewrite Hr; reflexivity).
  simpl. unfold mbind at 1, M_bind at 1. unfold mbind at 1, M_bind at 1.
  unfold mbind at 2, M_bind at 2. unfold set_running at 1. rewrite Hl.
  unfold mbind at 1, M_bind at 1.
  destruct (flush_log _ _) as [[[]| |e] w']; reflexivity.
Qed.

Lemma live_idle model base_df v d w l :
  running (session w) = Some false ->
  log_data (session w) = Some l ->
  live_monitoring model base_df v d false w = (Done tt, w).
Proof.
  intros Hr Hl. unfold live_monitoring.
  erewrite bind_done by (eapply session_eta; eauto).
  erewrite bind_done by (unfold get_running; rewrite Hr; reflexivity).
  simpl. unfold skip at 1.
  erewrite bind_done by reflexivity.
  erewrite bind_done by (unfold get_running; rewrite Hr; reflexivity).
  reflexivity.
Qed.

Lemma live_resume model base_df v d w buf :
  running (session w) = Some true ->
  log_data (session w) = Some buf ->
  live_monitoring model base_df v d false w =
    (monitor_loop model v d (take replay_limit base_df) ≫= fun _ =>
     get_running ≫= fun still_running : bool =>
     if still_running then set_running false ≫= fun _ => flush_log v
     else skip) w.
Proof.
  intros Hr Hl. unfold live_monitoring.
  erewrite bind_done by (eapply session_eta; eauto).
  erewrite bind_done by (unfold get_running; rewrite Hr; reflexivity).
  simpl. unfold skip at 1.
  erewrite bind_done by reflexivity.
  erewrite bind_done by (unfold get_running; rewrite Hr; reflexivity).
  reflexivity.
Qed.

Lemma dashboard_missing model base_df v button w :
  v ∈ vehicle_ids ->
  "logs" ∈ fs_dirs (fs w) ->
  log_folder_of v ∉ fs_dirs (fs w) ->
  fs_files (fs w) !! log_folder_of v = None ->
  script model base_df Dashboard v button w
  = (Done (DashboardView NoLogsFound), w).
Proof.
  intros Hv Hlogs Hdir Hfile. destruct (driver_known v Hv) as [d Hd].
  unfold script.
  rewrite (bind_done _ _ _ _ _ (makedirs_logs_present w Hlogs)).
  unfold mbind at 1, M_bind at 1. rewrite Hd. simpl.
  unfold dashboard, os_path_exists, mbind, M_bind.
  rewrite (bool_decide_eq_false_2 _ Hdir), Hfile.
  rewrite bool_decide_eq_false_2 by (intros [? ?]; discriminate).
  reflexivity.
Qed.

(** ** Stop with nothing buffered *)

(** C7. A Stop clicked while the session buffer is empty leaves storage
    as it was: the interaction ends normally, the file system is unchanged
    (no log file is written), and a vehicle that had no log folder is
    still reported as having no logs. *)
Theorem stop_with_empty_buffer model base_df v w :
  v ∈ vehicle_ids ->
  "logs" ∈ fs_dirs (fs w) ->
  running (session w) = Some true ->
  log_data (session w) = Some [] ->
  exists w',
    interact model base_df LiveMonitoring v true w = (Done LiveView, w')
    /\ fs w' = fs w
    /\ session w' = mk_session_state (Some false) (Some [])
    /\ (forall v', v' ∈ vehicle_ids ->
          log_folder_of v' ∉ fs_dirs (fs w) ->
          fs_files (fs w) !! log_folder_of v' = None ->
          script model base_df Dashboard v' false w'
          = (Done (DashboardView NoLogsFound), w')).
Proof.
  intros Hv Hlogs Hrun Hbuf. destruct (driver_known v Hv) as [d Hd].
  set (w1 := set_session (mk_session_state (Some false) (Some [])) w).
  assert (Hlogs1 : "logs" ∈ fs_dirs (fs w1)) by exact Hlogs.
  exists w1. split; [|split; [reflexivity|split; [reflexivity|]]].
  - unfold interact.
    rewrite (script_live _ _ _ _ _ _ Hd), (makedirs_logs_present w Hlogs).
    cbn [snd]. rewrite (live_stop _ _ _ _ _ _ Hrun Hbuf).
    rewrite flush_log_empty by reflexivity. fold w1.
    rewrite (script_live _ _ _ _ _ _ Hd), (makedirs_logs_present w1 Hlogs1).
    cbn [snd]. erewrite live_idle by reflexivity. reflexivity.
  - intros v' Hv' Hdir Hfile. now apply dashboard_missing.
Qed.

Lemma stop_with_empty_buffer_witness :
  let model := mk_classifier (fun _ => Some [1%Q])
                             (fun _ => Some [[(1#4)%Q; (3#4)%Q]]) in
  let w := mk_world (mk_session_state (Some true) (Some []))
                    (mk_filesystem {["logs"]} ∅)
                    (fun n => mk_datetime 2024 3 7 9 5 (Z.of_nat n) 0)
                    0 None None in
  exists w',
    interact model [] LiveMonitoring "KA-02" true w = (Done LiveView, w')
    /\ fs w' = fs w.
Proof.
  intros model w.
  destruct (stop_with_empty_buffer model [] "KA-02" w) as (w' & H1 & H2 & _).
  - unfold vehicle_ids. rewrite !elem_of_cons. right. left. reflexivity.
  - simpl. apply elem_of_singleton. reflexivity.
  - reflexivity.
  - reflexivity.
  - exists w'. split; assumption.
Defined.

(** ** Rounding and truncation *)

Lemma round_half_even_cases y :
  (round_half_even y = Qfloor y /\ (y - inject_Z (Qfloor y) <= 1 # 2)%Q)
  \/ (round_half_even y = (Qfloor y + 1)%Z
      /\ (1 # 2 <= y - inject_Z (Qfloor y))%Q).
Proof.
  unfold round_half_even.
  destruct (y - inject_Z (Qfloor y) ?= 1 # 2)%Q eqn:E.
  - apply Qeq_alt in E. destruct (Z.even (Qfloor y)); [left|right];
      (split; [reflexivity | rewrite E; apply Qle_refl]).
  - apply Qlt_alt in E. left. split; [reflexivity | now apply Qlt_le_weak].
  - apply Qgt_alt in E. right. split; [reflexivity | now apply Qlt_le_weak].
Qed.

Lemma round_half_even_error y :
  (Qabs (inject_Z (round_half_even y) - y) <= 1 # 2)%Q.
Proof.
  pose proof (Qfloor_le y) as Hlo. pose proof (Qlt_floor y) as Hhi.
  rewrite inject_Z_plus in Hhi. change (inject_Z 1) with 1%Q in Hhi.
  apply Qabs_Qle_condition.
  destruct (round_half_even_cases y) as [[-> H]|[-> H]].
  - split; lra.
  - rewrite inject_Z_plus. change (inject_Z 1) with 1%Q. split; lra.
Qed.

Lemma round_half_even_lower (a : Z) y :
  (inject_Z a <= y)%Q -> (a <= round_half_even y)%Z.
Proof.
  intros H. apply Qfloor_resp_le in H. rewrite Qfloor_Z in H.
  destruct (round_half_even_cases y) as [[-> _]|[-> _]]; lia.
Qed.

Lemma round_half_even_upper (b : Z) y :
  (y <= inject_Z b)%Q -> (round_half_even y <= b)%Z.
Proof.
  intros H. pose proof (Qfloor_le y) as Hlo.
  destruct (round_half_even_cases y) as [[-> _]|[-> Hhalf]].
  - apply Qfloor_resp_le in H. now rewrite Qfloor_Z in H.
  - assert (Hlt : (inject_Z (Qfloor y) < inject_Z b)%Q) by lra.
    rewrite <- Zlt_Qlt in Hlt. lia.
Qed.

Local Open Scope Q_scope.

(** ** Binary64 rounding *)

Lemma pow2_pos e : 0 < 2 ^ e.
Proof. apply Qpower_0_lt. reflexivity. Qed.

Lemma pow2_le a b : (a <= b)%Z -> 2 ^ a <= 2 ^ b.
Proof. intros H. apply Qpower_le_compat_l; [exact H | discriminate]. Qed.

Lemma pow2_plus a b : 2 ^ (a + b) == 2 ^ a * 2 ^ b.
Proof. apply Qpower_plus. discriminate. Qed.

Lemma pow2_inject a : (0 <= a)%Z -> inject_Z (2 ^ a) == 2 ^ a.
Proof. intros H. now rewrite Zpower_Qpower. Qed.

Lemma Qabs_make n d : Qabs (n # d) = (Z.abs n # d).
Proof. reflexivity. Qed.

(** The exponent is never too high: [2 ** ilog2 x <= |x|]. *)
Lemma ilog2_lower x : ~ x == 0 -> 2 ^ F64.ilog2 x <= Qabs x.
Proof.
  intros Hx. unfold F64.ilog2.
  destruct (Qle_bool _ _) eqn:E; [now apply Qle_bool_iff in E|].
  destruct x as [n d]. cbn [Qnum Qden]. rewrite Qabs_make.
  assert (Hn : (0 < Z.abs n)%Z).
  { destruct (Z.eq_dec n 0%Z) as [->|]; [exfalso; apply Hx; reflexivity | lia]. }
  set (a := Z.log2 (Z.abs n)). set (b := Z.log2 (Z.pos d)).
  destruct (Z.log2_spec (Z.abs n) Hn) as [Ha _]. fold a in Ha.
  destruct (Z.log2_spec (Z.pos d) (Pos2Z.is_pos d)) as [_ Hb]. fold b in Hb.
  pose proof (Z.log2_nonneg (Z.abs n)) as Ha0. fold a in Ha0.
  pose proof (Z.log2_nonneg (Z.pos d)) as Hb0. fold b in Hb0.
  rewrite (Qmake_Qdiv (Z.abs n) d).
  apply Qle_shift_div_l; [reflexivity|].
  apply Qle_trans with (2 ^ a); [|rewrite <- pow2_inject by exact Ha0;
                                  now rewrite <- Zle_Qle].
  replace a with ((a - b - 1) + Z.succ b)%Z at 2 by lia.
  rewrite pow2_plus. apply Qmult_le_l; [apply pow2_pos|].
  rewrite <- pow2_inject by lia. rewrite <- Zle_Qle. lia.
Qed.

Lemma ilog2_zero x : x == 0 -> (F64.ilog2 x < 0)%Z.
Proof.
  intros Hx. unfold F64.ilog2.
  assert (Hn : Qnum x = 0%Z).
  { destruct x as [n d]. unfold Qeq in Hx. simpl in *. lia. }
  rewrite Hn. change (Z.log2 (Z.abs 0)) with 0%Z.
  pose proof (Z.log2_nonneg (Z.pos (Qden x))) as Hb.
  destruct (Qle_bool _ _) eqn:E; [|lia].
  apply Qle_bool_iff in E. exfalso.
  assert (H0 : Qabs x == 0) by (rewrite Hx; reflexivity).
  rewrite H0 in E. pose proof (pow2_pos (0 - Z.log2 (Z.pos (Qden x)))).
  lra.
Qed.

Lemma ilog2_below x k : (0 <= k)%Z -> Qabs x < 2 ^ k -> (F64.ilog2 x < k)%Z.
Proof.
  intros Hk Hx. destruct (Qeq_dec x 0) as [H0|H0].
  - pose proof (ilog2_zero x H0). lia.
  - pose proof (ilog2_lower x H0) as Hlo.
    destruct (Z_lt_le_dec (F64.ilog2 x) k) as [|Hge]; [assumption|].
    pose proof (pow2_le _ _ Hge). lra.
Qed.

Lemma ulp_exponent_below x k :
  (0 <= k)%Z -> Qabs x < 2 ^ k -> (F64.ulp_exponent x <= k - 53)%Z.
Proof.
  intros Hk Hx. pose proof (ilog2_below x k Hk Hx). unfold F64.ulp_exponent.
  lia.
Qed.

(** Rounding moves a number by at most half a unit in the last place. *)
Lemma fl_error_ulp x :
  Qabs (F64.fl x - x) <= (1 # 2) * 2 ^ F64.ulp_exponent x.
Proof.
  unfold F64.fl. set (e := F64.ulp_exponent x). cbv zeta.
  rewrite Qred_correct.
  pose proof (pow2_pos e) as He.
  pose proof (round_half_even_error (x / 2 ^ e)) as H.
  set (m := inject_Z (round_half_even (x / 2 ^ e))) in *.
  assert (E : m * 2 ^ e - x == (m - x / 2 ^ e) * 2 ^ e).
  { field. lra. }
  rewrite E, Qabs_Qmult, (Qabs_pos (2 ^ e)) by lra.
  apply Qmult_le_compat_r; [exact H | lra].
Qed.

Lemma fl_error x k :
  (0 <= k)%Z -> Qabs x < 2 ^ k -> Qabs (F64.fl x - x) <= 2 ^ (k - 54).
Proof.
  intros Hk Hx. eapply Qle_trans; [apply fl_error_ulp|].
  pose proof (pow2_le _ _ (ulp_exponent_below x k Hk Hx)) as Hle.
  replace (k - 53)%Z with (1 + (k - 54))%Z in Hle by lia.
  rewrite pow2_plus in Hle. change (2 ^ 1) with 2 in Hle.
  pose proof (pow2_pos (k - 54)). lra.
Qed.

Lemma fl_nonneg x : 0 <= x -> 0 <= F64.fl x.
Proof.
  intros Hx. unfold F64.fl. set (e := F64.ulp_exponent x). cbv zeta.
  rewrite Qred_correct. pose proof (pow2_pos e) as He.
  apply Qmult_le_0_compat; [|lra].
  change 0 with (inject_Z 0). rewrite <- Zle_Qle.
  apply round_half_even_lower. change (inject_Z 0) with 0.
  apply Qle_shift_div_l; lra.
Qed.

(** Rounding does not cross a whole number the format holds exactly. *)
Lemma fl_upper x (n : Z) k :
  (0 <= k <= 53)%Z -> Qabs x < 2 ^ k -> x <= inject_Z n ->
  F64.fl x <= inject_Z n.
Proof.
  intros Hk Hx Hn. pose proof (ulp_exponent_below x k (proj1 Hk) Hx) as He.
  unfold F64.fl. set (e := F64.ulp_exponent x) in *. cbv zeta.
  rewrite Qred_correct. pose proof (pow2_pos e) as Hpos.
  assert (Hinv : 2 ^ e * inject_Z (2 ^ (- e)) == 1).
  { rewrite pow2_inject by lia. rewrite <- pow2_plus.
    replace (e + - e)%Z with 0%Z by lia. reflexivity. }
  assert (Hm : (round_half_even (x / 2 ^ e) <= n * 2 ^ (- e))%Z).
  { apply round_half_even_upper. rewrite inject_Z_mult.
    apply Qle_shift_div_r; [exact Hpos|].
    rewrite <- Qmult_assoc, (Qmult_comm (inject_Z (2 ^ (- e)))), Hinv.
    lra. }
  rewrite Zle_Qle, inject_Z_mult in Hm.
  apply Qle_trans with (inject_Z n * inject_Z (2 ^ (- e)) * 2 ^ e).
  - apply Qmult_le_compat_r; [exact Hm | lra].
  - rewrite <- Qmult_assoc, (Qmult_comm (inject_Z (2 ^ (- e)))), Hinv. lra.
Qed.

(** ** [round(x, 4)] on a probability *)

Lemma scaled_probability x :
  0 <= x <= 1 ->
  0 <= x * inject_Z 10000 <= inject_Z 10000
  /\ Qabs (x * inject_Z 10000) < 2 ^ 14.
Proof.
  intros [H0 H1]. change (inject_Z 10000) with (10000 # 1).
  assert (H : 0 <= x * (10000 # 1) <= (10000 # 1)) by (split; lra).
  split; [exact H|]. rewrite Qabs_pos by apply H.
  apply Qle_lt_trans with (10000 # 1); [apply H | reflexivity].
Qed.

Lemma py_round_4_steps x :
  0 <= x <= 1 ->
  let k := round_half_even (F64.mul x (inject_Z 10000)) in
  (0 <= k <= 10000)%Z
  /\ py_round x 4 = F64.div (inject_Z k) (inject_Z 10000)
  /\ Qabs (inject_Z k - x * inject_Z 10000) <= (1 # 2) + 2 ^ (-40)
  /\ Qabs (py_round x 4 - x) <= (5 # 100000) + 2 ^ (-52)
  /\ 0 <= py_round x 4 <= 1.
Proof.
  intros Hx k. destruct (scaled_probability x Hx) as [[Hs0 Hs1] Hs].
  set (y := F64.mul x (inject_Z 10000)) in *.
  assert (Hy0 : 0 <= y) by (apply fl_nonneg; exact Hs0).
  assert (Hy1 : y <= inject_Z 10000).
  { apply (fl_upper _ _ 14); [lia | exact Hs | exact Hs1]. }
  assert (Hye : Qabs (y - x * inject_Z 10000) <= 2 ^ (-40)).
  { apply (fl_error _ 14); [lia | exact Hs]. }
  assert (Hk : (0 <= k <= 10000)%Z).
  { split; [apply round_half_even_lower | apply round_half_even_upper];
      assumption. }
  pose proof (round_half_even_error y) as Hke. fold k in Hke.
  assert (Hq : 0 <= inject_Z k / inject_Z 10000 <= 1).
  { destruct Hk as [Hk0 Hk1]. rewrite Zle_Qle in Hk0, Hk1.
    change (inject_Z 0) with 0 in Hk0.
    split; [apply Qle_shift_div_l; [reflexivity | lra]
           | apply Qle_shift_div_r; [reflexivity | lra]]. }
  assert (Hqa : Qabs (inject_Z k / inject_Z 10000) < 2 ^ 1).
  { rewrite Qabs_pos by apply Hq.
    apply Qle_lt_trans with 1; [apply Hq | reflexivity]. }
  assert (Hre : Qabs (F64.div (inject_Z k) (inject_Z 10000)
                      - inject_Z k / inject_Z 10000) <= 2 ^ (-53)).
  { apply (fl_error _ 1); [lia | exact Hqa]. }
  split; [exact Hk|]. split; [reflexivity|].
  assert (Hclose : Qabs (inject_Z k - x * inject_Z 10000)
                   <= (1 # 2) + 2 ^ (-40)).
  { apply Qabs_Qle_condition in Hke, Hye. apply Qabs_Qle_condition.
    split; lra. }
  split; [exact Hclose|]. split.
  - change (py_round x 4) with (F64.div (inject_Z k) (inject_Z 10000)).
    set (r := F64.div (inject_Z k) (inject_Z 10000)) in *.
    assert (Hdiv : inject_Z k / inject_Z 10000 == inject_Z k * (1 # 10000))
      by reflexivity.
    rewrite Hdiv in Hre.
    change (inject_Z 10000) with (10000 # 1) in Hclose.
    change (2 ^ (-40)) with (1 # 1099511627776) in Hclose.
    change (2 ^ (-53)) with (1 # 9007199254740992) in Hre.
    change (2 ^ (-52)) with (1 # 4503599627370496).
    apply Qabs_Qle_condition in Hclose, Hre. apply Qabs_Qle_condition.
    split; lra.
  - change (py_round x 4) with (F64.div (inject_Z k) (inject_Z 10000)).
    split; [apply fl_nonneg; apply Hq|].
    change 1 with (inject_Z 1).
    apply (fl_upper _ _ 1); [lia | exact Hqa | apply Hq].
Qed.


Local Close Scope Q_scope.


Lemma py_int_integer x (z : Z) : (x == inject_Z z)%Q -> py_int x = z.
Proof.
  unfold py_int, Qeq. destruct x as [n d]; simpl. intros H.
  replace n with (z * Z.pos d)%Z by lia. apply Z.quot_mul. lia.
Qed.

Lemma classify_answers model row preds pred probas proba prob :
  predict model (features row) = Some preds ->
  preds !! 0%nat = Some pred ->
  predict_proba model (features row) = Some probas ->
  probas !! 0%nat = Some proba ->
  proba !! 1%nat = Some prob ->
  classify model row = Some (pred, prob).
Proof.
  intros H1 H2 H3 H4 H5. unfold classify.
  rewrite H1; simpl. rewrite H2; simpl. rewrite H3; simpl.
  rewrite H4; simpl. rewrite H5; reflexivity.
Qed.

(** ** The enriched record *)

(** C8. The record appended for a reading carries as its cause the first
    tag of [get_causes] on that reading, or "None" when there is none;
    the tags come in rule order, and the whole sequence, unchanged, is
    what the notice lists. *)
Theorem primary_cause_is_first_tag model v d row w pred prob buf :
  classify model row = Some (pred, prob) ->
  log_data (session w) = Some buf ->
  exists w' rec shown,
    process_row model v d row w = (Done tt, w')
    /\ log_data (session w') = Some (buf ++ [rec])
    /\ breakdown_cause rec
       = match get_causes row with
         | [] => "None"
         | first :: _ => first
         end
    /\ get_causes row `sublist_of` cause_order
    /\ placeholder w' = Some shown
    /\ shown_causes shown = get_causes row.
Proof.
  intros Hc Hbuf.
  eexists _, _, _. split; [exact (process_row_done _ v d _ _ _ _ _ Hc Hbuf)|].
  split; [reflexivity|]. split; [reflexivity|].
  split; [apply get_causes_in_rule_order|]. split; reflexivity.
Qed.

Lemma primary_cause_is_first_tag_witness :
  let model := mk_classifier (fun _ => Some [1%Q])
                             (fun _ => Some [[(1#4)%Q; (3#4)%Q]]) in
  let row := scenario_reading (mk_datetime 2024 3 7 9 5 1 0) 0 0 0 in
  let w := mk_world (mk_session_state (Some true) (Some []))
                    (mk_filesystem {["logs"]} ∅)
                    (fun n => mk_datetime 2024 3 7 9 5 (Z.of_nat n) 0)
                    0 None None in
  exists w' rec,
    process_row model "KA-01" "Rishab" row w = (Done tt, w')
    /\ log_data (session w') = Some [rec]
    /\ breakdown_cause rec = "Overheating (Coolant Temp > 100°C)".
Proof.
  intros model row w.
  destruct (primary_cause_is_first_tag model "KA-01" "Rishab" row w
              1%Q (3#4)%Q [] eq_refl eq_refl)
    as (w' & rec & shown & H1 & H2 & H3 & _).
  exists w', rec. split; [exact H1|]. split; [exact H2|exact H3].
Defined.

(** C10, as the spec words it, fails on the code.  The class-1
    probability is the double 0.12345, a little above the decimal; the
    nearest number with four decimals is 0.1235.  [round] scales it to
    exactly 1234.5, which goes to the even 1234: the record stores the
    double 0.1234, which is neither the four-decimal rounding of the raw
    value nor the double nearest to it, and lies more than 0.00005 from
    the raw value. *)
Lemma logged_probability_off_decimal :
  let p := (2223877495995551 # 18014398509481984)%Q in
  let model :=
    mk_classifier (fun _ => Some [0%Q])
      (fun _ => Some [[(493453781671451 # 562949953421312)%Q; p]]) in
  let row := scenario_reading (mk_datetime 2024 3 7 9 5 1 0) 0 0 0 in
  let w := mk_world (mk_session_state (Some true) (Some []))
                    (mk_filesystem {["logs"]} ∅)
                    (fun n => mk_datetime 2024 3 7 9 5 (Z.of_nat n) 0)
                    0 None None in
  F64.fl (12345 # 100000) = p
  /\ round_decimal p 4 = (1235 # 10000)%Q
  /\ exists w' rec,
       process_row model "KA-01" "Rishab" row w = (Done tt, w')
       /\ log_data (session w') = Some [rec]
       /\ probability rec = F64.fl (1234 # 10000)
       /\ ~ (probability rec == round_decimal p 4)%Q
       /\ probability rec <> F64.fl (round_decimal p 4)
       /\ (5 # 100000 < Qabs (probability rec - p))%Q.
Proof.
  intros p model row w. split; [vm_compute; reflexivity|].
  split; [vm_compute; reflexivity|].
  eexists _, _.
  split; [exact (process_row_done model "KA-01" "Rishab" row w 0%Q p []
                   eq_refl eq_refl)|].
  split; [reflexivity|]. split; [vm_compute; reflexivity|].
  split; [vm_compute; discriminate|].
  split; [vm_compute; discriminate|]. vm_compute. reflexivity.
Qed.

(** C10, amended.  The probability stored for a reading is [round(p, 4)]
    of the classifier's class-1 probability [p = predict_proba(...)[0][1]],
    computed in double arithmetic.  For [p] in [0, 1] it is the double
    nearest to [k / 10000] for a whole [k] from 0 to 10000 within
    [1/2 + 2 ** -40] of [10000 * p]; it lies in [0, 1] and within
    [0.00005 + 2 ** -52] of [p].  The stored prediction is [int] of
    [predict(...)[0]]: the label itself when the label is a whole
    number. *)
Theorem logged_probability_rounded model v d row w buf
    preds pred probas proba prob :
  predict model (features row) = Some preds ->
  preds !! 0%nat = Some pred ->
  predict_proba model (features row) = Some probas ->
  probas !! 0%nat = Some proba ->
  proba !! 1%nat = Some prob ->
  log_data (session w) = Some buf ->
  exists w' rec,
    process_row model v d row w = (Done tt, w')
    /\ log_data (session w') = Some (buf ++ [rec])
    /\ probability rec = py_round prob 4
    /\ ((0 <= prob <= 1)%Q ->
        exists k : Z,
          (0 <= k <= 10000)%Z
          /\ probability rec = F64.div (inject_Z k) (inject_Z 10000)
          /\ (Qabs (inject_Z k - prob * inject_Z 10000)
              <= (1 # 2) + 2 ^ (-40))%Q
          /\ (Qabs (probability rec - prob) <= (5 # 100000) + 2 ^ (-52))%Q
          /\ (0 <= probability rec <= 1)%Q)
    /\ prediction rec = py_int pred
    /\ (forall z : Z, (pred == inject_Z z)%Q -> prediction rec = z).
Proof.
  intros H1 H2 H3 H4 H5 Hbuf.
  pose proof (classify_answers _ _ _ _ _ _ _ H1 H2 H3 H4 H5) as Hc.
  eexists _, _. split; [exact (process_row_done _ v d _ _ _ _ _ Hc Hbuf)|].
  split; [reflexivity|]. split; [reflexivity|]. split.
  { intros Hp. eexists. exact (py_round_4_steps prob Hp). }
  split; [reflexivity|]. intros z Hz. now apply py_int_integer.
Qed.

Lemma logged_probability_rounded_witness :
  let p := (8895942329546431 # 72057594037927936)%Q in
  let model :=
    mk_classifier (fun _ => Some [1%Q])
      (fun _ => Some [[(986900807943461 # 1125899906842624)%Q; p]]) in
  let row := scenario_reading (mk_datetime 2024 3 7 9 5 1 0) 0 0 0 in
  let w := mk_world (mk_session_state (Some true) (Some []))
                    (mk_filesystem {["logs"]} ∅)
                    (fun n => mk_datetime 2024 3 7 9 5 (Z.of_nat n) 0)
                    0 None None in
  exists w' rec,
    process_row model "KA-01" "Rishab" row w = (Done tt, w')
    /\ log_data (session w') = Some [rec]
    /\ probability rec = F64.fl (1235 # 10000)
    /\ (Qabs (probability rec - p) <= (5 # 100000) + 2 ^ (-52))%Q
    /\ prediction rec = 1%Z.
Proof.
  intros p model row w.
  destruct (logged_probability_rounded model "KA-01" "Rishab" row w []
              [1%Q] 1%Q
              [[(986900807943461 # 1125899906842624)%Q; p]]
              [(986900807943461 # 1125899906842624)%Q; p] p
              eq_refl eq_refl eq_refl eq_refl eq_refl eq_refl)
    as (w' & rec & H1 & H2 & H3 & H4 & H5 & _).
  assert (Hp : (0 <= p <= 1)%Q) by (split; unfold Qle; simpl; lia).
  destruct (H4 Hp) as (k & _ & _ & _ & Hnear & _).
  exists w', rec. split; [exact H1|]. split; [exact H2|].
  split; [rewrite H3; vm_compute; reflexivity|].
  split; [exact Hnear | rewrite H5; reflexivity].
Defined.

(** ** A full run *)

Lemma classifier_ok_classified model row :
  classifier_ok model row -> classified model row.
Proof.
  intros (pred & prob & Hc & _). unfold classified. rewrite Hc. now eexists.
Qed.

Lemma pass_records_readings model v d clk n df :
  Forall (classified model) df ->
  reading <$> pass_records model v d clk n df = df.
Proof.
  intros H. revert n. induction H as [|row rest [[pred prob] Hc] _ IH];
    intros n; simpl; [reflexivity|].
  rewrite Hc. simpl. now rewrite IH.
Qed.


Lemma makedirs_adds_logs w :
  "logs" ∈ fs_dirs (fs (snd (os_makedirs "logs" w))).
Proof.
  simpl. apply elem_of_union. right. apply elem_of_union. left.
  now apply elem_of_singleton.
Qed.

Lemma to_csv_done path rows w :
  (forall k, disk_free w = Some k -> length rows <= k) ->
  exists free,
    to_csv path rows w =
      (Done tt,
       set_fs (mk_filesystem (fs_dirs (fs w))
                 (<[path := rows]> (fs_files (fs w)))) free w).
Proof.
  intros Hfree. unfold to_csv. destruct (disk_free w) as [k|].
  - specialize (Hfree k eq_refl). apply Nat.leb_le in Hfree. rewrite Hfree.
    eexists; reflexivity.
  - eexists; reflexivity.
Qed.

Lemma to_csv_fail path rows w k :
  disk_free w = Some k -> k < length rows ->
  to_csv path rows w =
    (Raise OSError,
     set_fs (mk_filesystem (fs_dirs (fs w))
               (<[path := take k rows]> (fs_files (fs w)))) (Some O) w).
Proof.
  intros Hk Hlt. unfold to_csv. rewrite Hk.
  apply Nat.leb_gt in Hlt. rewrite Hlt. reflexivity.
Qed.

Lemma live_resume_pass model base_df v d w buf :
  running (session w) = Some true ->
  log_data (session w) = Some buf ->
  Forall (classified model) (take replay_limit base_df) ->
  exists shown,
    live_monitoring model base_df v d false w =
      flush_log v
        (mk_world
           (mk_session_state (Some false)
              (Some (buf ++ pass_records model v d (clock w) (tick w)
                              (take replay_limit base_df))))
           (fs w) (clock w) (tick w + length (take replay_limit base_df))
           (disk_free w) shown).
Proof.
  intros Hrun Hbuf Hall.
  rewrite (live_resume _ _ _ _ _ _ Hrun Hbuf).
  destruct (monitor_loop_done model v d _ w buf Hrun Hbuf Hall)
    as [shown Hloop].
  exists shown. rewrite (bind_done _ _ _ _ _ Hloop). reflexivity.
Qed.

Lemma live_monitoring_init model base_df v d button w :
  live_monitoring model base_df v d button w
  = live_monitoring model base_df v d button (snd (init_session w)).
Proof.
  unfold live_monitoring.
  rewrite (bind_done init_session _ w tt (snd (init_session w)) eq_refl).
  now rewrite (bind_done init_session _ (snd (init_session w)) tt
                 (snd (init_session w)) eq_refl).
Qed.





(** ** A classifier failure *)

(** C4, as the spec words it, fails on the code: the classifier raises
    on the second reading, one record is in the buffer, and the run ends
    with the exception while the store holds no file. *)
Lemma classifier_failure_drops_flush :
  let good := scenario_reading (mk_datetime 2024 3 7 9 5 1 0) 0 0 0 in
  let bad :=
    mk_Reading (mk_datetime 2024 3 7 9 5 2 0) (-999) 0 0 0 0 0 0 0 0 0 in
  let w := mk_world (mk_session_state None None)
                    (mk_filesystem ∅ ∅)
                    (fun n => mk_datetime 2024 3 7 9 5 (Z.of_nat n) 0)
                    0 None None in
  exists w' r,
    interact picky_model [good; bad; good] LiveMonitoring "KA-01" true w
    = (Raise ClassifierError, w')
    /\ log_data (session w') = Some [r]
    /\ fs_files (fs w') = ∅.
Proof.
  intros good bad w. eexists _, _. vm_compute.
  split; [reflexivity|]. split; reflexivity.
Qed.

(** C4 (amended). When the classifier raises on a reading the run ends
    with that exception; nothing is written to the log store; the
    records of the readings before the failing one stay in the session
    buffer, and the session stays marked as running. *)
Theorem classifier_failure_keeps_buffer model base_df v w pre bad post :
  v ∈ vehicle_ids ->
  running (session w) <> Some true ->
  take replay_limit base_df = pre ++ bad :: post ->
  Forall (classified model) pre ->
  classify model bad = None ->
  exists e w' records,
    interact model base_df LiveMonitoring v true w = (Raise e, w')
    /\ fs_files (fs w') = fs_files (fs w)
    /\ running (session w') = Some true
    /\ log_data (session w') = Some records
    /\ reading <$> records = pre.
Proof.
  intros Hv Hidle Hdf Hpre Hbad. destruct (driver_known v Hv) as [d Hd].
  set (w0 := snd (os_makedirs "logs" w)).
  set (w1 := set_session (mk_session_state (Some true) (Some [])) w0).
  assert (Hrun1 : script model base_df LiveMonitoring v true w = (Rerun, w1)).
  { rewrite (script_live _ _ _ _ _ _ Hd). fold w0.
    rewrite live_start by exact Hidle. reflexivity. }
  destruct (monitor_loop_raise model v d pre bad post w1 []
              eq_refl eq_refl Hpre Hbad) as (e & shown & Hloop).
  exists e. eexists _, _. split.
  - unfold interact. rewrite Hrun1, (script_live _ _ _ _ _ _ Hd).
    rewrite (makedirs_logs_present w1 (makedirs_adds_logs w)). cbn [snd].
    rewrite (live_resume model base_df v d w1 [] eq_refl eq_refl), Hdf.
    rewrite (bind_raise _ _ _ _ _ Hloop). reflexivity.
  - split; [reflexivity|]. split; [reflexivity|]. split; [reflexivity|].
    simpl. apply pass_records_readings. exact Hpre.
Qed.

Lemma classifier_failure_keeps_buffer_witness :
  let good := scenario_reading (mk_datetime 2024 3 7 9 5 1 0) 0 0 0 in
  let bad :=
    mk_Reading (mk_datetime 2024 3 7 9 5 2 0) (-999) 0 0 0 0 0 0 0 0 0 in
  let w := mk_world (mk_session_state None None)
                    (mk_filesystem ∅ ∅)
                    (fun n => mk_datetime 2024 3 7 9 5 (Z.of_nat n) 0)
                    0 None None in
  exists e w' records,
    interact picky_model [good; bad; good] LiveMonitoring "KA-01" true w
    = (Raise e, w')
    /\ fs_files (fs w') = fs_files (fs w)
    /\ log_data (session w') = Some records
    /\ reading <$> records = [good].
Proof.
  intros good bad w.
  assert (Hv : "KA-01" ∈ vehicle_ids) by (apply elem_of_cons; now left).
  assert (Hidle : running (session w) <> Some true) by discriminate.
  assert (Hpre : Forall (classified picky_model) [good])
    by (repeat constructor; eexists; reflexivity).
  destruct (classifier_failure_keeps_buffer picky_model [good; bad; good]
              "KA-01" w [good] bad [good] Hv Hidle eq_refl Hpre eq_refl)
    as (e & w' & records & H1 & H2 & _ & H4 & H5).
  exists e, w', records. repeat split; assumption.
Defined.

(** ** Persisting *)

(** C5, as the spec words it, fails on the code: with two records
    buffered and room for one row, Stop raises and the destination path
    holds a log with the first row only. *)
Lemma stop_write_failure_leaves_partial_file :
  let row := scenario_reading (mk_datetime 2024 3 7 9 5 1 0) 0 0 0 in
  let r1 := enriched "KA-01" "Rishab" row 1 (3#4) (mk_datetime 2024 3 7 9 5 2 0) in
  let r2 := enriched "KA-01" "Rishab" row 0 (1#4) (mk_datetime 2024 3 7 9 5 3 0) in
  let w := mk_world (mk_session_state (Some true) (Some [r1; r2]))
                    (mk_filesystem {["logs"]} ∅)
                    (fun n => mk_datetime 2024 3 7 9 5 (Z.of_nat n) 0)
                    4 (Some 1) None in
  let model := mk_classifier (fun _ => None) (fun _ => None) in
  exists w',
    interact model [] LiveMonitoring "KA-01" true w = (Raise OSError, w')
    /\ fs_files (fs w') !! "logs/KA-01/2024-03-07_09-05-04_log.csv"
       = Some [r1].
Proof.
  intros row r1 r2 w model. eexists. split; vm_compute; reflexivity.
Qed.

(** C5 (amended). A flush writes the buffer with one [to_csv] to the
    destination path itself, with no staging: when the write succeeds
    the file there holds exactly the buffered records; when it fails
    after [k] rows the error is raised, the file there holds those [k]
    rows, and the buffer is kept. *)
Theorem flush_writes_destination_directly v w buf :
  log_data (session w) = Some buf ->
  buf <> [] ->
  let dest := log_path_of v (clock w (tick w)) in
  ((forall k, disk_free w = Some k -> length buf <= k) ->
   exists w',
     flush_log v w = (Done tt, w')
     /\ fs_files (fs w') = <[dest := buf]> (fs_files (fs w)))
  /\ (forall k, disk_free w = Some k -> k < length buf ->
      exists w',
        flush_log v w = (Raise OSError, w')
        /\ fs_files (fs w') = <[dest := take k buf]> (fs_files (fs w))
        /\ log_data (session w') = Some buf).
Proof.
  intros Hbuf Hne dest. rewrite (flush_log_rows _ _ _ Hbuf Hne). fold dest.
  split.
  - intros Hfree. edestruct to_csv_done as [free Hcsv]; [|rewrite Hcsv].
    + exact Hfree.
    + eexists. split; reflexivity.
  - intros k Hk Hlt. erewrite to_csv_fail; [| exact Hk | exact Hlt].
    eexists. split; [reflexivity|]. split; [reflexivity|]. exact Hbuf.
Qed.

Lemma flush_writes_destination_directly_witness :
  let row := scenario_reading (mk_datetime 2024 3 7 9 5 1 0) 0 0 0 in
  let r1 := enriched "KA-01" "Rishab" row 1 (3#4) (mk_datetime 2024 3 7 9 5 2 0) in
  let r2 := enriched "KA-01" "Rishab" row 0 (1#4) (mk_datetime 2024 3 7 9 5 3 0) in
  let w := mk_world (mk_session_state (Some false) (Some [r1; r2]))
                    (mk_filesystem {["logs"]} ∅)
                    (fun n => mk_datetime 2024 3 7 9 5 (Z.of_nat n) 0)
                    4 (Some 1) None in
  exists w',
    flush_log "KA-01" w = (Raise OSError, w')
    /\ fs_files (fs w')
       = <[log_path_of "KA-01" (mk_datetime 2024 3 7 9 5 4 0) := [r1]]> ∅.
Proof.
  intros row r1 r2 w.
  destruct (flush_writes_destination_directly "KA-01" w [r1; r2] eq_refl)
    as [_ Hfail]; [discriminate|].
  destruct (Hfail 1 eq_refl) as (w' & H1 & H2 & _); [simpl; lia|].
  exists w'. split; [exact H1 | exact H2].
Defined.

(** ** Order of strings *)

Lemma lex_eq c d : lex c d = Eq <-> c = Eq /\ d = Eq.
Proof. destruct c; simpl; intuition discriminate. Qed.

Lemma ascii_compare_refl c : Ascii.compare c c = Eq.
Proof. apply N.compare_refl. Qed.

Lemma string_compare_refl s : String.compare s s = Eq.
Proof.
  induction s as [|c s IH]; simpl; [reflexivity|].
  now rewrite ascii_compare_refl.
Qed.

Lemma string_compare_cons c d s t :
  String.compare (String c s) (String d t)
  = lex (Ascii.compare c d) (String.compare s t).
Proof. simpl. destruct (Ascii.compare c d); reflexivity. Qed.

Lemma string_compare_app a b s t :
  String.length a = String.length b ->
  String.compare (a ++ s) (b ++ t)
  = lex (String.compare a b) (String.compare s t).
Proof.
  revert b. induction a as [|c a IH]; intros [|d b] Hlen;
    try discriminate Hlen; [reflexivity|].
  injection Hlen as Hlen.
  change (String.compare (String c (a ++ s)) (String d (b ++ t))
          = lex (String.compare (String c a) (String d b))
                (String.compare s t)).
  rewrite !string_compare_cons, (IH b Hlen).
  destruct (Ascii.compare c d); reflexivity.
Qed.

Lemma string_le_trans a : forall b c,
  String.compare a b <> Gt -> String.compare b c <> Gt ->
  String.compare a c <> Gt.
Proof.
  induction a as [|x a IH]; intros [|y b] [|z c]; simpl; try congruence.
  unfold Ascii.compare.
  destruct (N.compare_spec (N_of_ascii x) (N_of_ascii y)) as [Hxy|Hxy|Hxy];
    destruct (N.compare_spec (N_of_ascii y) (N_of_ascii z)) as [Hyz|Hyz|Hyz];
    destruct (N.compare_spec (N_of_ascii x) (N_of_ascii z)) as [Hxz|Hxz|Hxz];
    try congruence; try lia.
  apply IH.
Qed.

(** ** [sorted(..., reverse=True)] puts a greatest name first *)

Lemma insert_desc_head x l :
  exists rest,
    insert_desc x l
    = match l with
      | [] => x
      | m :: _ => if String.ltb x m then m else x
      end :: rest.
Proof.
  destruct l as [|m l]; simpl; [eauto|].
  destruct (String.ltb x m); eauto.
Qed.

Lemma sorted_reverse_head (names : list string) :
  names <> [] ->
  exists first rest,
    sorted_reverse names = first :: rest
    /\ first ∈ names
    /\ forall name, name ∈ names -> String.compare name first <> Gt.
Proof.
  induction names as [|x l IH]; [congruence|]. intros _.
  unfold sorted_reverse. simpl. fold (sorted_reverse l).
  destruct (insert_desc_head x (sorted_reverse l)) as [rest Hins].
  rewrite Hins. destruct l as [|y l].
  - simpl. exists x, rest. split; [reflexivity|]. split; [now left|].
    intros name Hin. apply list_elem_of_singleton in Hin as ->.
    now rewrite string_compare_refl.
  - destruct IH as (m & rest' & Hm & Hin & Hmax); [congruence|].
    rewrite Hm. unfold String.ltb.
    destruct (String.compare x m) eqn:Hx.
    + exists x, rest. split; [reflexivity|]. split; [now left|].
      intros name Hname. apply elem_of_cons in Hname as [->|Hname].
      * now rewrite string_compare_refl.
      * apply String.compare_eq_iff in Hx. subst m. now apply Hmax.
    + exists m, rest. split; [reflexivity|]. split; [now right|].
      intros name Hname. apply elem_of_cons in Hname as [->|Hname].
      * congruence.
      * now apply Hmax.
    + exists x, rest. split; [reflexivity|]. split; [now left|].
      intros name Hname. apply elem_of_cons in Hname as [->|Hname].
      * now rewrite string_compare_refl.
      * apply (string_le_trans name m x); [now apply Hmax|].
        rewrite String.compare_antisym, Hx. discriminate.
Qed.

(** ** Zero-padded decimals compare like the numbers *)

Lemma digit_compare a b :
  (0 <= a < 10)%Z -> (0 <= b < 10)%Z ->
  Ascii.compare (digit a) (digit b) = (a ?= b)%Z.
Proof.
  intros Ha Hb. unfold Ascii.compare, digit.
  rewrite !N_ascii_embedding by lia.
  rewrite Z2N.inj_compare by lia. apply Z.add_compare_mono_l.
Qed.

Lemma zpad_length w n : String.length (zpad w n) = w.
Proof. induction w as [|w IH]; simpl; [reflexivity | now rewrite IH]. Qed.

Lemma zpad_compare w n m :
  String.compare (zpad w n) (zpad w m)
  = (n mod 10 ^ Z.of_nat w ?= m mod 10 ^ Z.of_nat w)%Z.
Proof.
  induction w as [|w IH].
  - simpl. now rewrite !Z.mod_1_r.
  - cbn [zpad]. rewrite string_compare_cons, IH.
    assert (Hp : (0 < 10 ^ Z.of_nat w)%Z) by (apply Z.pow_pos_nonneg; lia).
    rewrite digit_compare by (apply Z.mod_pos_bound; lia).
    rewrite Nat2Z.inj_succ, Z.pow_succ_r by lia.
    rewrite (Z.mul_comm 10), !Z.rem_mul_r by lia.
    pose proof (Z.mod_pos_bound n _ Hp) as Hn.
    pose proof (Z.mod_pos_bound m _ Hp) as Hm.
    set (p := (10 ^ Z.of_nat w)%Z) in *.
    set (a := ((n / p) mod 10)%Z). set (b := ((m / p) mod 10)%Z).
    set (r := (n mod p)%Z) in *. set (r' := (m mod p)%Z) in *.
    destruct (Z.compare_spec a b) as [Hab|Hab|Hab]; simpl.
    + rewrite Hab, (Z.add_comm r), (Z.add_comm r'). symmetry.
      apply Z.add_compare_mono_l.
    + symmetry. apply Z.compare_lt_iff. nia.
    + symmetry. apply Z.compare_gt_iff. nia.
Qed.

Lemma zpad_compare_small w n m :
  (0 <= n < 10 ^ Z.of_nat w)%Z -> (0 <= m < 10 ^ Z.of_nat w)%Z ->
  String.compare (zpad w n) (zpad w m) = (n ?= m)%Z.
Proof. intros Hn Hm. now rewrite zpad_compare, !Z.mod_small. Qed.

Lemma sep_compare c s t :
  String.compare (String c s) (String c t) = String.compare s t.
Proof. now rewrite string_compare_cons, ascii_compare_refl. Qed.

Lemma field_compare w n m c s t :
  String.compare (zpad w n +:+ String c "" +:+ s)
                 (zpad w m +:+ String c "" +:+ t)
  = lex (String.compare (zpad w n) (zpad w m)) (String.compare s t).
Proof.
  rewrite string_compare_app by (now rewrite !zpad_length).
  change (String c "" +:+ s) with (String c s).
  change (String c "" +:+ t) with (String c t).
  now rewrite sep_compare.
Qed.

Lemma string_length_app a b :
  String.length (a ++ b) = String.length a + String.length b.
Proof.
  induction a as [|c a IH]; [reflexivity|].
  change (S (String.length (a ++ b)) = S (String.length a + String.length b)).
  now rewrite IH.
Qed.

Lemma strftime_length t : String.length (strftime t) = 19.
Proof.
  unfold strftime.
  repeat (rewrite string_length_app || rewrite zpad_length
          || cbn [String.length]).
  reflexivity.
Qed.

(** The formatting preserves the order of the times, down to the second. *)
Lemma strftime_compare t1 t2 :
  stamp_ok t1 -> stamp_ok t2 ->
  String.compare (strftime t1) (strftime t2) = stamp_compare t1 t2.
Proof.
  intros (Hy1 & Hm1 & Hd1 & Hh1 & Hmi1 & Hs1 & _)
         (Hy2 & Hm2 & Hd2 & Hh2 & Hmi2 & Hs2 & _).
  unfold strftime, stamp_compare.
  rewrite !field_compare, !zpad_compare_small by (simpl; lia). reflexivity.
Qed.

Lemma log_name_compare t1 t2 :
  stamp_ok t1 -> stamp_ok t2 ->
  String.compare (log_name (strftime t1)) (log_name (strftime t2))
  = stamp_compare t1 t2.
Proof.
  intros H1 H2. unfold log_name.
  rewrite string_compare_app by (now rewrite !strftime_length).
  rewrite (strftime_compare _ _ H1 H2), string_compare_refl.
  now destruct (stamp_compare t1 t2).
Qed.

Lemma stamp_compare_eq t1 t2 : stamp_compare t1 t2 = Eq <-> same_second t1 t2.
Proof.
  unfold stamp_compare, same_second.
  rewrite !lex_eq, !Z.compare_eq_iff. tauto.
Qed.

(** ** Log paths *)

Lemma digit_not_sep d : (0 <= d < 10)%Z -> Ascii.eqb (digit d) "/" = false.
Proof.
  intros Hd. apply Ascii.eqb_neq. intros H.
  apply (f_equal N_of_ascii) in H. unfold digit in H.
  rewrite N_ascii_embedding in H by lia. simpl in H. lia.
Qed.

Lemma vehicle_id_shape v :
  v ∈ vehicle_ids ->
  String.length v = 5
  /\ (String.eqb (log_folder_of v) "" || ends_with_sep (log_folder_of v))
     = false.
Proof.
  unfold vehicle_ids. rewrite !elem_of_cons, elem_of_nil.
  intros [->|[->|[->|[->|[->|[]]]]]]; split; reflexivity.
Qed.

Lemma string_app_assoc a b c : (a +:+ b) +:+ c = a +:+ b +:+ c.
Proof.
  induction a as [|x a IH]; [reflexivity|].
  change (String x ((a +:+ b) +:+ c) = String x (a +:+ b +:+ c)).
  now rewrite IH.
Qed.

Lemma log_name_no_sep t : starts_with_sep (log_name (strftime t)) = false.
Proof.
  unfold log_name, strftime.
  change (zpad 4 (year t))
    with (String (digit ((year t / 10 ^ Z.of_nat 3) mod 10))
                 (zpad 3 (year t))).
  cbn [String.append starts_with_sep].
  apply digit_not_sep. apply Z.mod_pos_bound. lia.
Qed.

Lemma log_path_unfold v t :
  v ∈ vehicle_ids ->
  log_path_of v t = "logs/" +:+ v +:+ "/" +:+ log_name (strftime t).
Proof.
  intros Hv. destruct (vehicle_id_shape v Hv) as [_ Hsep].
  unfold log_path_of, path_join. rewrite Hsep, log_name_no_sep.
  unfold log_folder_of. apply string_app_assoc.
Qed.

Lemma string_app_inj a b s t :
  String.length a = String.length b ->
  a +:+ s = b +:+ t -> a = b /\ s = t.
Proof.
  revert b. induction a as [|c a IH]; intros [|d b] Hlen H;
    try discriminate Hlen; [now split|].
  injection Hlen as Hlen. injection H as -> H.
  destruct (IH b Hlen H) as [-> ->]. now split.
Qed.

Lemma strftime_same_second t1 t2 :
  same_second t1 t2 -> strftime t1 = strftime t2.
Proof.
  intros (Hy & Hm & Hd & Hh & Hmi & Hs). unfold strftime.
  now rewrite Hy, Hm, Hd, Hh, Hmi, Hs.
Qed.

(** C6, as the spec words it, fails on the code: two flushes for one
    vehicle at different times of the same second get the same path. *)
Lemma same_second_paths_collide :
  let t1 := mk_datetime 2024 3 7 9 5 4 100000 in
  let t2 := mk_datetime 2024 3 7 9 5 4 900000 in
  t1 <> t2 /\ log_path_of "KA-01" t1 = log_path_of "KA-01" t2.
Proof. split; [discriminate | reflexivity]. Qed.

(** C6 (amended). Two flushes write to the same path exactly when they
    are for the same vehicle and their times agree down to the second:
    flushes for different vehicles, or in different seconds, never share a
    file. *)
Theorem log_path_shared_iff v1 v2 t1 t2 :
  v1 ∈ vehicle_ids -> v2 ∈ vehicle_ids ->
  stamp_ok t1 -> stamp_ok t2 ->
  log_path_of v1 t1 = log_path_of v2 t2 <-> v1 = v2 /\ same_second t1 t2.
Proof.
  intros Hv1 Hv2 Ht1 Ht2. split.
  - rewrite (log_path_unfold v1 t1 Hv1), (log_path_unfold v2 t2 Hv2).
    intros H. apply string_app_inj in H as [_ H]; [|reflexivity].
    apply string_app_inj in H as [Hv H].
    2:{ destruct (vehicle_id_shape v1 Hv1) as [-> _].
        now destruct (vehicle_id_shape v2 Hv2) as [-> _]. }
    split; [exact Hv|]. apply string_app_inj in H as [_ H]; [|reflexivity].
    apply stamp_compare_eq. rewrite <- (log_name_compare _ _ Ht1 Ht2), H.
    apply string_compare_refl.
  - intros [-> Hsame]. unfold log_path_of.
    now rewrite (strftime_same_second _ _ Hsame).
Qed.

Lemma log_path_shared_iff_witness :
  let t1 := mk_datetime 2024 3 7 9 5 4 100000 in
  let t2 := mk_datetime 2024 3 7 9 5 5 100000 in
  log_path_of "KA-01" t1 <> log_path_of "KA-01" t2.
Proof.
  intros t1 t2 H.
  assert (Hv : "KA-01" ∈ vehicle_ids) by (apply elem_of_cons; now left).
  assert (H1 : stamp_ok t1) by (unfold stamp_ok; simpl; lia).
  assert (H2 : stamp_ok t2) by (unfold stamp_ok; simpl; lia).
  apply (log_path_shared_iff "KA-01" "KA-01" t1 t2 Hv Hv H1 H2) in H
    as [_ (_ & _ & _ & _ & _ & Hs)].
  discriminate Hs.
Defined.

(** ** What a flush leaves is what the Dashboard lists *)

Lemma strip_prefix_app p s : strip_prefix p (p +:+ s) = Some s.
Proof.
  induction p as [|c p IH]; [now destruct s|].
  change (strip_prefix (String c p) (String c (p +:+ s)) = Some s).
  cbn [strip_prefix]. now rewrite Ascii.eqb_refl.
Qed.

Lemma has_sep_app a b : has_sep (a +:+ b) = has_sep a || has_sep b.
Proof.
  induction a as [|c a IH]; [reflexivity|].
  change (has_sep (String c (a +:+ b)) = has_sep (String c a) || has_sep b).
  cbn [has_sep]. now rewrite IH, orb_assoc.
Qed.

Lemma has_sep_zpad w n : has_sep (zpad w n) = false.
Proof.
  induction w as [|w IH]; [reflexivity|]. cbn [zpad has_sep].
  rewrite IH, digit_not_sep by (apply Z.mod_pos_bound; lia). reflexivity.
Qed.

Lemma log_name_plain t :
  (String.eqb (log_name (strftime t)) "" || has_sep (log_name (strftime t)))
  = false.
Proof.
  apply orb_false_iff. split.
  - apply String.eqb_neq. intros H. apply (f_equal String.length) in H.
    unfold log_name in H. rewrite string_length_app, strftime_length in H.
    discriminate H.
  - unfold log_name, strftime.
    rewrite !has_sep_app, !has_sep_zpad. reflexivity.
Qed.

Lemma entry_of_log v t :
  v ∈ vehicle_ids ->
  entry_of (log_folder_of v) (log_path_of v t) = Some (log_name (strftime t)).
Proof.
  intros Hv. unfold entry_of.
  rewrite (log_path_unfold v t Hv).
  replace ("logs/" +:+ v +:+ "/" +:+ log_name (strftime t))
    with ((log_folder_of v +:+ "/") +:+ log_name (strftime t))
    by (unfold log_folder_of; now rewrite !string_app_assoc).
  now rewrite strip_prefix_app, log_name_plain.
Qed.

(** A log file at the path of time [t] appears in the folder's listing
    under the name of [t]. *)
Lemma written_log_is_listed v t f rows :
  v ∈ vehicle_ids ->
  fs_files f !! log_path_of v t = Some rows ->
  log_name (strftime t) ∈ listing (log_folder_of v) f.
Proof.
  intros Hv Hfile. unfold listing. apply list_elem_of_omap.
  exists (log_path_of v t). split; [|now apply entry_of_log].
  apply elem_of_elements, elem_of_union. left.
  apply elem_of_dom. now exists rows.
Qed.

Lemma string_app_nil_r a : a +:+ "" = a.
Proof.
  induction a as [|c a IH]; [reflexivity|].
  change (String c (a +:+ "") = String c a). now rewrite IH.
Qed.

Lemma path_prefixes_self p : forall acc, (acc +:+ p) ∈ path_prefixes acc p.
Proof.
  induction p as [|c p IH]; intros acc; cbn [path_prefixes].
  - rewrite string_app_nil_r. now left.
  - replace (acc +:+ String c p) with ((acc +:+ String c "") +:+ p)
      by now rewrite string_app_assoc.
    destruct (Ascii.eqb c "/") eqn:E.
    + apply Ascii.eqb_eq in E as ->. right. apply IH.
    + apply IH.
Qed.

Lemma makedirs_makes p w : p ∈ fs_dirs (fs (snd (os_makedirs p w))).
Proof.
  cbn [os_makedirs snd set_fs fs fs_dirs]. apply elem_of_union. right.
  apply elem_of_list_to_set. apply (path_prefixes_self p "").
Qed.

(** After a flush that succeeds, the folder exists and lists the new log. *)
Lemma flushed_log_is_listed v w w' buf :
  v ∈ vehicle_ids ->
  log_data (session w) = Some buf -> buf <> [] ->
  flush_log v w = (Done tt, w') ->
  log_folder_of v ∈ fs_dirs (fs w')
  /\ log_name (strftime (clock w (tick w)))
     ∈ listing (log_folder_of v) (fs w')
  /\ fs_files (fs w') !! log_path_of v (clock w (tick w)) = Some buf.
Proof.
  intros Hv Hbuf Hne Hflush.
  rewrite (flush_log_rows _ _ _ Hbuf Hne) in Hflush.
  set (w1 := snd (os_makedirs (log_folder_of v) (snd (datetime_now w)))) in *.
  assert (Hdir1 : log_folder_of v ∈ fs_dirs (fs w1)) by apply makedirs_makes.
  assert (Hw' : fs w' = mk_filesystem (fs_dirs (fs w1))
                  (<[log_path_of v (clock w (tick w)) := buf]>
                     (fs_files (fs w1)))).
  { unfold to_csv in Hflush. destruct (disk_free w1) as [k|].
    - destruct (length buf <=? k)%nat; [|discriminate Hflush].
      now injection Hflush as <-.
    - now injection Hflush as <-. }
  rewrite Hw'. cbn [fs_dirs fs_files].
  assert (Hfile : <[log_path_of v (clock w (tick w)) := buf]>
                    (fs_files (fs w1)) !! log_path_of v (clock w (tick w))
                  = Some buf) by apply lookup_insert_eq.
  split; [exact Hdir1|]. split; [|exact Hfile].
  eapply written_log_is_listed; [exact Hv | exact Hfile].
Qed.

(** ** The latest log *)

Lemma datetime_le_stamp t1 t2 :
  datetime_le t1 t2 -> stamp_compare t1 t2 <> Gt.
Proof.
  unfold datetime_le, datetime_compare.
  destruct (stamp_compare t1 t2); simpl; congruence.
Qed.

(** C9. When the vehicle's log folder holds exactly the logs flushed at
    the times [ts], the Dashboard loads the one flushed at the latest of
    them: the first name in reverse lexicographic order is the name of
    the greatest time, since the formatting keeps the order. *)
Theorem dashboard_loads_latest v w (ts : list datetime) tmax :
  log_folder_of v ∈ fs_dirs (fs w) ->
  (forall name, name ∈ listing (log_folder_of v) (fs w)
                <-> exists t, t ∈ ts /\ name = log_name (strftime t)) ->
  (forall t, t ∈ ts -> is_Some (fs_files (fs w) !! log_path_of v t)) ->
  Forall stamp_ok ts ->
  tmax ∈ ts ->
  (forall t, t ∈ ts -> datetime_le t tmax) ->
  exists log_df,
    fs_files (fs w) !! log_path_of v tmax = Some log_df
    /\ dashboard v w
       = (Done (Loaded (log_path_of v tmax) (length log_df)
                       (foldr Z.add 0%Z (prediction <$> log_df))), w).
Proof.
  intros Hdir Hnames Hfiles Hok Hin Hmax.
  destruct (Hfiles tmax Hin) as [log_df Hfile]. exists log_df.
  split; [exact Hfile|].
  rewrite Forall_forall in Hok.
  assert (Hne : listing (log_folder_of v) (fs w) <> []).
  { intros Hnil. assert (H : log_name (strftime tmax) ∈ @nil string).
    { rewrite <- Hnil. apply Hnames. eauto. }
    now apply elem_of_nil in H. }
  destruct (sorted_reverse_head _ Hne) as (first & rest & Hsort & Hfirst & Hge).
  apply Hnames in Hfirst as (t & Ht & ->).
  assert (Heq : log_name (strftime t) = log_name (strftime tmax)).
  { apply String.compare_eq_iff.
    pose proof (Hge (log_name (strftime tmax))) as H1.
    rewrite String.compare_antisym in H1.
    pose proof (datetime_le_stamp _ _ (Hmax t Ht)) as H2.
    rewrite <- (log_name_compare _ _ (Hok t Ht) (Hok tmax Hin)) in H2.
    destruct (String.compare (log_name (strftime t))
                             (log_name (strftime tmax)));
      [reflexivity | exfalso | congruence].
    apply H1; [apply Hnames; eauto | reflexivity]. }
  unfold dashboard.
  erewrite bind_done.
  2:{ unfold os_path_exists. rewrite (bool_decide_eq_true_2 _ Hdir).
      reflexivity. }
  cbn [negb orb].
  erewrite bind_done.
  2:{ unfold os_listdir. rewrite (bool_decide_eq_true_2 _ Hdir).
      reflexivity. }
  rewrite Hsort, Heq. fold (log_path_of v tmax).
  erewrite bind_done by (unfold read_csv; rewrite Hfile; reflexivity).
  reflexivity.
Qed.

Lemma dashboard_loads_latest_witness :
  let t1 := mk_datetime 2024 3 7 9 59 58 0 in
  let t2 := mk_datetime 2024 3 7 10 0 3 0 in
  fst (dashboard "KA-01" two_logs)
  = Done (Loaded "logs/KA-01/2024-03-07_10-00-03_log.csv" 1 0).
Proof.
  intros t1 t2.
  assert (Hl : listing (log_folder_of "KA-01") (fs two_logs)
               = [log_name (strftime t2); log_name (strftime t1)])
    by (vm_compute; reflexivity).
  destruct (dashboard_loads_latest "KA-01" two_logs [t1; t2] t2)
    as (log_df & Hfile & Hdash).
  - vm_compute. reflexivity.
  - intros name. rewrite Hl. split.
    + intros H. apply elem_of_cons in H as [->|H].
      * exists t2. split; [right; left | reflexivity].
      * apply list_elem_of_singleton in H as ->.
        exists t1. split; [left | reflexivity].
    + intros (t & Ht & ->). apply elem_of_cons in Ht as [->|Ht].
      * right; left.
      * apply list_elem_of_singleton in Ht as ->. left.
  - intros t Ht. apply elem_of_cons in Ht as [->|Ht].
    + eexists. vm_compute. reflexivity.
    + apply list_elem_of_singleton in Ht as ->. eexists. vm_compute.
      reflexivity.
  - repeat constructor; simpl; lia.
  - right; left.
  - intros t Ht. apply elem_of_cons in Ht as [->|Ht].
    + unfold datetime_le. vm_compute. discriminate.
    + apply list_elem_of_singleton in Ht as ->. unfold datetime_le.
      vm_compute. discriminate.
  - rewrite Hdash. simpl.
    assert (E : fs_files (fs two_logs) !! log_path_of "KA-01" t2
                = Some [enriched "KA-01" "Rishab"
                          (scenario_reading (mk_datetime 2024 3 7 9 5 1 0) 0 0 0)
                          0 (1#4) t2])
      by (vm_compute; reflexivity).
    rewrite E in Hfile. injection Hfile as <-. reflexivity.
Defined.

(** * Further properties of the cause rules *)

Ltac split_rules :=
  unfold get_causes, append_if;
  repeat match goal with
         | |- context [if ?b then _ else _] => destruct b
         end.

Lemma overheating_fires row :
  bool_decide (cause_overheating ∈ get_causes row)
  = (Vehicle_Speed row >? 1)%Q && (Engine_Coolant_Temperature row >? 100)%Q.
Proof. split_rules; vm_compute; reflexivity. Qed.

Lemma stall_fires row :
  bool_decide (cause_stall ∈ get_causes row)
  = (Vehicle_Speed row >? 1)%Q
    && ((Throttle_Position row <? 70)%Q
        && (Engine_RPM row <? F64.mul (Throttle_Position row) 70)%Q).
Proof.
  unfold get_causes, append_if. cbv zeta.
  generalize (Engine_RPM row <? F64.mul (Throttle_Position row) 70)%Q.
  intros product_above.
  repeat match goal with
         | |- context [if ?b then _ else _] => destruct b
         end; destruct product_above; vm_compute; reflexivity.
Qed.

Lemma blockage_fires row :
  bool_decide (cause_blockage ∈ get_causes row)
  = (Vehicle_Speed row >? 1)%Q
    && (Intake_Manifold_Abs_Pressure row >? 220)%Q.
Proof. split_rules; vm_compute; reflexivity. Qed.

Lemma intake_fires row :
  bool_decide (cause_intake ∈ get_causes row)
  = (Vehicle_Speed row >? 1)%Q
    && ((Intake_Air_Temperature row >? 120)%Q
        || (Intake_Air_Temperature row <? -20)%Q).
Proof. split_rules; vm_compute; reflexivity. Qed.

Lemma gear_fires row :
  bool_decide (cause_gear ∈ get_causes row)
  = (Acc_Pedal_Pos_D row >? 30)%Q && (Vehicle_Speed row <? 5)%Q.
Proof. split_rules; vm_compute; reflexivity. Qed.

Lemma fires_iff (P : Prop) `{Decision P} (b : bool) :
  bool_decide P = b -> (P <-> b = true).
Proof. intros <-. symmetry. apply bool_decide_eq_true. Qed.

(** X1. Each tag is in the result exactly when its own rule holds: the
    four engine rules only for a speed above 1, the gear rule whatever
    the speed is above or below 1.  The stall rule compares the RPM with
    the product of the throttle position and 70 as double arithmetic
    gives it, that is, rounded to the nearest double. *)
Theorem get_causes_tag_iff row :
  (cause_overheating ∈ get_causes row
   <-> (1 < Vehicle_Speed row /\ 100 < Engine_Coolant_Temperature row)%Q)
  /\ (cause_stall ∈ get_causes row
      <-> (1 < Vehicle_Speed row /\ Throttle_Position row < 70
           /\ Engine_RPM row < F64.mul (Throttle_Position row) 70)%Q)
  /\ (cause_blockage ∈ get_causes row
      <-> (1 < Vehicle_Speed row
           /\ 220 < Intake_Manifold_Abs_Pressure row)%Q)
  /\ (cause_intake ∈ get_causes row
      <-> (1 < Vehicle_Speed row
           /\ (120 < Intake_Air_Temperature row
               \/ Intake_Air_Temperature row < -20))%Q)
  /\ (cause_gear ∈ get_causes row
      <-> (30 < Acc_Pedal_Pos_D row /\ Vehicle_Speed row < 5)%Q).
Proof.
  split; [|split; [|split; [|split]]].
  - rewrite (fires_iff _ _ (overheating_fires row)).
    now rewrite andb_true_iff, !gtb_lt.
  - rewrite (fires_iff _ _ (stall_fires row)).
    now rewrite !andb_true_iff, gtb_lt, !ltb_lt.
  - rewrite (fires_iff _ _ (blockage_fires row)).
    now rewrite andb_true_iff, !gtb_lt.
  - rewrite (fires_iff _ _ (intake_fires row)).
    now rewrite andb_true_iff, orb_true_iff, !gtb_lt, ltb_lt.
  - rewrite (fires_iff _ _ (gear_fires row)).
    now rewrite andb_true_iff, gtb_lt, ltb_lt.
Qed.

(** X2. The result never repeats a tag, holds only tags of the five
    rules, and so has at most five entries. *)
Theorem get_causes_no_repeats row :
  NoDup (get_causes row)
  /\ (forall tag, tag ∈ get_causes row -> tag ∈ cause_order)
  /\ length (get_causes row) <= 5.
Proof.
  pose proof (get_causes_in_rule_order row) as Hsub.
  split; [|split].
  - eapply sublist_NoDup; [|exact Hsub].
    apply (bool_decide_unpack _). vm_compute. exact I.
  - intros tag Hin. eapply elem_of_sublist; eassumption.
  - apply sublist_length in Hsub. exact Hsub.
Qed.

(** X3. For a vehicle at a speed of at most 1 only the gear rule is
    looked at: the result is the gear tag alone when the pedal position D
    is above 30, and empty otherwise, whatever the engine readings. *)
Theorem stationary_only_gear row :
  (Vehicle_Speed row <= 1)%Q ->
  ((30 < Acc_Pedal_Pos_D row)%Q -> get_causes row = [cause_gear])
  /\ ((Acc_Pedal_Pos_D row <= 30)%Q -> get_causes row = []).
Proof.
  intros Hspeed. unfold get_causes, append_if.
  rewrite (gtb_le _ _ Hspeed).
  assert (Hslow : (Vehicle_Speed row <? 5)%Q = true).
  { apply ltb_lt. eapply Qle_lt_trans; [exact Hspeed | reflexivity]. }
  rewrite Hslow, andb_true_r. split; intros Hpedal.
  - apply gtb_lt in Hpedal. now rewrite Hpedal.
  - now rewrite (gtb_le _ _ Hpedal).
Qed.

Lemma stationary_only_gear_witness :
  let row := mk_Reading (mk_datetime 2024 3 7 9 5 1 0)
                        130 300 0 0 150 3 10 20 45 0 in
  get_causes row
  = ["Pedal pressed but vehicle not moving → possible gear issue"].
Proof.
  intros row.
  assert (Hs : (Vehicle_Speed row <= 1)%Q) by (unfold Qle; simpl; lia).
  assert (Hp : (30 < Acc_Pedal_Pos_D row)%Q) by (unfold Qlt; simpl; lia).
  exact (proj1 (stationary_only_gear row Hs) Hp).
Defined.

(** X4. The primary cause follows the rule order: it is "None" exactly
    when no rule fires, it is the overheating tag whenever the
    overheating rule fires, and it is the gear tag only when the gear tag
    is the whole result. *)
Theorem main_cause_priority row :
  (main_cause_of (get_causes row) = "None" <-> get_causes row = [])
  /\ ((1 < Vehicle_Speed row)%Q ->
      (100 < Engine_Coolant_Temperature row)%Q ->
      main_cause_of (get_causes row) = cause_overheating)
  /\ (main_cause_of (get_causes row) = cause_gear
      <-> get_causes row = [cause_gear]).
Proof.
  split; [|split].
  - split_rules; vm_compute; split; intros H; (reflexivity || discriminate H).
  - intros Hs Hc. apply gtb_lt in Hs, Hc. unfold get_causes, append_if.
    rewrite Hs, Hc.
    repeat match goal with
           | |- context [if ?b then _ else _] => destruct b
           end; reflexivity.
  - split_rules; vm_compute; split; intros H; (reflexivity || discriminate H).
Qed.

Lemma main_cause_priority_witness :
  let row := mk_Reading (mk_datetime 2024 3 7 9 5 1 0)
                        130 300 0 3 150 3 10 20 45 0 in
  main_cause_of (get_causes row) = "Overheating (Coolant Temp > 100°C)".
Proof.
  intros row.
  assert (Hs : (1 < Vehicle_Speed row)%Q) by (unfold Qlt; simpl; lia).
  assert (Hc : (100 < Engine_Coolant_Temperature row)%Q)
    by (unfold Qlt; simpl; lia).
  exact (proj1 (proj2 (main_cause_priority row)) Hs Hc).
Defined.

(** * Further properties of the loop *)

Lemma keeps_store_refl w : keeps_store w w.
Proof.
  repeat split. intros buf Hbuf. exists []. now rewrite app_nil_r.
Qed.

Lemma keeps_store_trans w1 w2 w3 :
  keeps_store w1 w2 -> keeps_store w2 w3 -> keeps_store w1 w3.
Proof.
  intros (Hf & Hd & Hc & Hr & Hb) (Hf' & Hd' & Hc' & Hr' & Hb').
  repeat split; try congruence.
  intros buf Hbuf. destruct (Hb buf Hbuf) as [new Hnew].
  destruct (Hb' _ Hnew) as [new' Hnew']. exists (new ++ new').
  now rewrite app_assoc.
Qed.

Lemma process_row_keeps model v d row w out w' :
  process_row model v d row w = (out, w') ->
  keeps_store w w' /\ out <> Rerun.
Proof.
  unfold process_row, index, call, append_log, get_log_data, set_log_data,
    datetime_now, show, set_session, raise, mbind, M_bind, mret, M_ret, call.
  destruct (predict model (features row)) as [preds|];
    [|intros [= <- <-]; split; [apply keeps_store_refl | discriminate]].
  destruct (preds !! 0%nat) as [pred|];
    [|intros [= <- <-]; split; [apply keeps_store_refl | discriminate]].
  destruct (predict_proba model (features row)) as [probas|];
    [|intros [= <- <-]; split; [apply keeps_store_refl | discriminate]].
  destruct (probas !! 0%nat) as [proba|];
    [|intros [= <- <-]; split; [apply keeps_store_refl | discriminate]].
  destruct (proba !! 1%nat) as [prob|];
    [|intros [= <- <-]; split; [apply keeps_store_refl | discriminate]].
  cbn [session log_data running fs clock tick disk_free placeholder].
  destruct (log_data (session w)) as [buf|] eqn:Hbuf.
  - intros [= <- <-]. split; [|discriminate]. repeat split.
    cbn. intros buf' Hb. rewrite Hbuf in Hb. injection Hb as <-. eauto.
  - cbn. intros [= <- <-]. split; [|discriminate]. repeat split.
    cbn. intros buf'. rewrite Hbuf. discriminate.
Qed.

Lemma monitor_loop_keeps model v d df : forall w out w',
  monitor_loop model v d df w = (out, w') ->
  keeps_store w w' /\ out <> Rerun.
Proof.
  induction df as [|row rest IH]; intros w out w'; cbn [monitor_loop].
  - intros [= <- <-]. split; [apply keeps_store_refl | discriminate].
  - unfold mbind at 1, M_bind at 1, get_running, call, raise.
    destruct (running (session w)) as [[]|];
      cbn [negb mret M_ret skip]; try (intros [= <- <-]; split;
        [apply keeps_store_refl | discriminate]).
    unfold mbind at 1, M_bind at 1.
    destruct (process_row model v d row w) as [[[]| |e] w1] eqn:Hrow;
      destruct (process_row_keeps _ _ _ _ _ _ _ Hrow) as [Hk Hne].
    + intros Hrest. destruct (IH _ _ _ Hrest) as [Hk' Hne'].
      split; [eapply keeps_store_trans; eassumption | exact Hne'].
    + congruence.
    + intros [= <- <-]. split; [exact Hk | discriminate].
Qed.

(** X5. However the loop ends, normally or by an exception, it has left
    the file system, the disk and the running flag as they were and has
    only appended to the buffer; it never asks for a rerun. *)
Theorem monitor_loop_keeps_store model v d df w out w' :
  monitor_loop model v d df w = (out, w') ->
  fs w' = fs w
  /\ disk_free w' = disk_free w
  /\ running (session w') = running (session w)
  /\ (forall buf, log_data (session w) = Some buf ->
        exists new, log_data (session w') = Some (buf ++ new))
  /\ out <> Rerun.
Proof.
  intros Hloop.
  destruct (monitor_loop_keeps model v d df w out w' Hloop)
    as [(?&?&?&?&?) ?].
  repeat split; assumption.
Qed.

Lemma monitor_loop_keeps_store_witness :
  let good := scenario_reading (mk_datetime 2024 3 7 9 5 1 0) 0 0 0 in
  let bad :=
    mk_Reading (mk_datetime 2024 3 7 9 5 2 0) (-999) 0 0 0 0 0 0 0 0 0 in
  let w := mk_world (mk_session_state (Some true) (Some []))
                    (mk_filesystem {["logs"]} ∅)
                    (fun n => mk_datetime 2024 3 7 9 5 (Z.of_nat n) 0)
                    0 (Some 3) None in
  fs (snd (monitor_loop picky_model "KA-01" "Rishab" [good; bad] w)) = fs w.
Proof.
  intros good bad w.
  destruct (monitor_loop picky_model "KA-01" "Rishab" [good; bad] w)
    as [out w'] eqn:Hloop.
  exact (proj1 (monitor_loop_keeps_store _ _ _ _ _ _ _ Hloop)).
Defined.

(** * Further properties of the session *)

(** A page run that finds the session running, in full. *)
Lemma pass_exact model base_df v d w buf :
  driver_mapping !! v = Some d ->
  running (session w) = Some true ->
  log_data (session w) = Some buf ->
  Forall (classified model) (take replay_limit base_df) ->
  (forall k, disk_free w = Some k ->
             length buf + length (take replay_limit base_df) <= k) ->
  let records := pass_records model v d (clock w) (tick w)
                   (take replay_limit base_df) in
  exists w',
    script model base_df LiveMonitoring v false w = (Done LiveView, w')
    /\ session w' = mk_session_state (Some false) (Some (buf ++ records))
    /\ fs_files (fs w')
       = match buf ++ records with
         | [] => fs_files (fs w)
         | _ :: _ =>
             <[log_path_of v
                 (clock w (tick w + length (take replay_limit base_df)))
               := buf ++ records]> (fs_files (fs w))
         end.
Proof.
  intros Hd Hrun Hbuf Hall Hfree records.
  set (df := take replay_limit base_df) in *.
  assert (Hlen : length records = length df)
    by (apply pass_records_length; exact Hall).
  set (w0 := snd (os_makedirs "logs" w)).
  destruct (live_resume_pass model base_df v d w0 buf Hrun Hbuf Hall)
    as [shown Hlive].
  fold df in Hlive. change (clock w0) with (clock w) in Hlive.
  change (tick w0) with (tick w) in Hlive. fold records in Hlive.
  rewrite (script_live _ _ _ _ _ _ Hd). fold w0. rewrite Hlive.
  destruct (buf ++ records) as [|r rows] eqn:Hrows.
  - rewrite flush_log_empty by reflexivity.
    eexists. split; [reflexivity|]. split; reflexivity.
  - erewrite flush_log_rows by (reflexivity || discriminate).
    edestruct to_csv_done as [free Hcsv]; [|rewrite Hcsv].
    { intros k Hk. rewrite <- Hrows, length_app, Hlen. apply Hfree.
      exact Hk. }
    eexists. split; [reflexivity|]. split; reflexivity.
Qed.

(** X6. A page run that finds the session still running, without a
    click, replays the readings from the first one and appends to
    whatever the buffer already holds: with [k] records left over and N
    readings the log written has [k + N] rows. *)
Theorem resumed_pass_appends model base_df v w buf :
  v ∈ vehicle_ids ->
  running (session w) = Some true ->
  log_data (session w) = Some buf ->
  Forall (classified model) (take replay_limit base_df) ->
  (forall k, disk_free w = Some k ->
             length buf + length (take replay_limit base_df) <= k) ->
  exists w' records,
    script model base_df LiveMonitoring v false w = (Done LiveView, w')
    /\ reading <$> records = take replay_limit base_df
    /\ session w' = mk_session_state (Some false) (Some (buf ++ records))
    /\ fs_files (fs w')
       = match buf ++ records with
         | [] => fs_files (fs w)
         | _ :: _ =>
             <[log_path_of v
                 (clock w (tick w + length (take replay_limit base_df)))
               := buf ++ records]> (fs_files (fs w))
         end.
Proof.
  intros Hv Hrun Hbuf Hall Hfree. destruct (driver_known v Hv) as [d Hd].
  destruct (pass_exact model base_df v d w buf Hd Hrun Hbuf Hall Hfree)
    as (w' & Hrun' & Hsession & Hfiles).
  exists w', (pass_records model v d (clock w) (tick w)
                (take replay_limit base_df)).
  split; [exact Hrun'|]. split; [|split; assumption].
  apply pass_records_readings. exact Hall.
Qed.

Lemma resumed_pass_appends_witness :
  let model := mk_classifier (fun _ => Some [1%Q])
                             (fun _ => Some [[(1#4)%Q; (3#4)%Q]]) in
  let row := scenario_reading (mk_datetime 2024 3 7 9 5 1 0) 0 0 0 in
  let old := enriched "KA-01" "Rishab" row 0 (1#4)
               (mk_datetime 2024 3 7 9 4 0 0) in
  let w := mk_world (mk_session_state (Some true) (Some [old]))
                    (mk_filesystem {["logs"]} ∅)
                    (fun n => mk_datetime 2024 3 7 9 5 (Z.of_nat n) 0)
                    0 None None in
  exists w' records,
    script model [row; row] LiveMonitoring "KA-01" false w
    = (Done LiveView, w')
    /\ log_data (session w') = Some (old :: records)
    /\ length records = 2
    /\ fs_files (fs w') !! "logs/KA-01/2024-03-07_09-05-02_log.csv"
       = Some (old :: records).
Proof.
  intros model row old w.
  assert (Hv : "KA-01" ∈ vehicle_ids) by (apply elem_of_cons; now left).
  assert (Hall : Forall (classified model) (take replay_limit [row; row])).
  { change (take replay_limit [row; row]) with [row; row].
    repeat constructor; eexists; reflexivity. }
  assert (Hfree : forall k, disk_free w = Some k ->
            length [old] + length (take replay_limit [row; row]) <= k)
    by (intros k Hk; discriminate Hk).
  destruct (resumed_pass_appends model [row; row] "KA-01" w [old]
              Hv eq_refl eq_refl Hall Hfree)
    as (w' & records & H1 & H2 & H3 & H4).
  exists w', records. split; [exact H1|]. split; [now rewrite H3|].
  assert (Hlen : length records = 2).
  { rewrite <- (length_fmap reading), H2. reflexivity. }
  split; [exact Hlen|]. rewrite H4. cbn [app].
  apply lookup_insert_eq.
Defined.

(** X7. A Stop clicked with records in the buffer flushes them and
    processes no further reading, whatever the classifier and the data:
    the log holds exactly the buffer, the clock was read once (for the
    file name), the session ends idle, and the buffer is still in the
    session state afterwards. *)
Theorem stop_flushes_buffer model base_df v w buf :
  v ∈ vehicle_ids ->
  running (session w) = Some true ->
  log_data (session w) = Some buf ->
  buf <> [] ->
  (forall k, disk_free w = Some k -> length buf <= k) ->
  exists w',
    interact model base_df LiveMonitoring v true w = (Done LiveView, w')
    /\ session w' = mk_session_state (Some false) (Some buf)
    /\ fs_files (fs w')
       = <[log_path_of v (clock w (tick w)) := buf]> (fs_files (fs w))
    /\ tick w' = S (tick w).
Proof.
  intros Hv Hrun Hbuf Hne Hfree. destruct (driver_known v Hv) as [d Hd].
  unfold interact. rewrite (script_live _ _ _ _ _ _ Hd).
  rewrite (live_stop model base_df v d (snd (os_makedirs "logs" w)) buf
             Hrun Hbuf).
  erewrite flush_log_rows by (reflexivity || exact Hne).
  edestruct to_csv_done as [free Hcsv]; [|rewrite Hcsv].
  { exact Hfree. }
  rewrite (script_live _ _ _ _ _ _ Hd).
  erewrite live_idle by reflexivity.
  eexists. split; [reflexivity|]. split; [reflexivity|].
  split; reflexivity.
Qed.

Lemma stop_flushes_buffer_witness :
  let row := scenario_reading (mk_datetime 2024 3 7 9 5 1 0) 0 0 0 in
  let r1 := enriched "KA-03" "Arjun" row 1 (3#4)
              (mk_datetime 2024 3 7 9 5 2 0) in
  let w := mk_world (mk_session_state (Some true) (Some [r1]))
                    (mk_filesystem {["logs"]} ∅)
                    (fun n => mk_datetime 2024 3 7 9 5 (Z.of_nat n) 0)
                    4 (Some 1) None in
  exists w',
    interact picky_model [row] LiveMonitoring "KA-03" true w
    = (Done LiveView, w')
    /\ fs_files (fs w') !! "logs/KA-03/2024-03-07_09-05-04_log.csv"
       = Some [r1]
    /\ tick w' = 5.
Proof.
  intros row r1 w.
  assert (Hv : "KA-03" ∈ vehicle_ids)
    by (unfold vehicle_ids; rewrite !elem_of_cons;
        repeat ((left; reflexivity) || right)).
  assert (Hfree : forall k, disk_free w = Some k -> length [r1] <= k)
    by (intros k [= <-]; simpl; lia).
  destruct (stop_flushes_buffer picky_model [row] "KA-03" w [r1]
              Hv eq_refl eq_refl ltac:(discriminate) Hfree)
    as (w' & H1 & _ & H3 & H4).
  exists w'. split; [exact H1|]. split; [|exact H4].
  rewrite H3. apply lookup_insert_eq.
Defined.

(** X8. A run of the Live Monitoring page that finds the session idle
    and has no click processes no reading and writes no file, whatever
    an earlier session left in the buffer; on the very first run it sets
    the two session keys to their defaults. *)
Theorem idle_run_does_nothing model base_df v w :
  v ∈ vehicle_ids ->
  running (session w) <> Some true ->
  exists w',
    script model base_df LiveMonitoring v false w = (Done LiveView, w')
    /\ session w'
       = mk_session_state (Some false)
           (Some (default [] (log_data (session w))))
    /\ fs_files (fs w') = fs_files (fs w)
    /\ tick w' = tick w
    /\ disk_free w' = disk_free w.
Proof.
  intros Hv Hidle. destruct (driver_known v Hv) as [d Hd].
  rewrite (script_live _ _ _ _ _ _ Hd).
  destruct w as [[r l] f c t q p]. cbn [session running] in Hidle.
  destruct r as [[]|]; [congruence| |]; destruct l;
    (eexists; split; [reflexivity|]; repeat split).
Qed.

Lemma idle_run_does_nothing_witness :
  let w := mk_world (mk_session_state None None)
                    (mk_filesystem ∅ ∅)
                    (fun n => mk_datetime 2024 3 7 9 5 (Z.of_nat n) 0)
                    0 None None in
  exists w',
    script picky_model [] LiveMonitoring "KA-01" false w = (Done LiveView, w')
    /\ session w' = mk_session_state (Some false) (Some [])
    /\ fs_files (fs w') = ∅.
Proof.
  intros w.
  assert (Hv : "KA-01" ∈ vehicle_ids) by (apply elem_of_cons; now left).
  destruct (idle_run_does_nothing picky_model [] "KA-01" w Hv
              ltac:(discriminate))
    as (w' & H1 & H2 & H3 & _).
  exists w'. split; [exact H1|]. split; [exact H2 | exact H3].
Defined.

(** ** How the records of a run are stamped *)

Lemma pass_records_stamps model v d clk df : forall n,
  Forall (classified model) df ->
  timestamp <$> pass_records model v d clk n df = clk <$> seq n (length df).
Proof.
  induction df as [|row rest IH]; intros n Hall; [reflexivity|].
  inversion Hall as [|? ? [[pred prob] Hc] Hrest]; subst.
  cbn [pass_records]. rewrite Hc. cbn. now rewrite IH.
Qed.

Lemma pass_records_identity model v d clk n df :
  Forall (fun r => vehicle_id r = v /\ driver r = d)
         (pass_records model v d clk n df).
Proof.
  revert n. induction df as [|row rest IH]; intros n; [constructor|].
  cbn [pass_records]. destruct (classify model row) as [[pred prob]|];
    [|constructor].
  constructor; [now split | apply IH].
Qed.

(** X9. In a run from Start to the end of the stream every record
    carries the selected vehicle and the driver mapped to it, and the
    records are stamped with the successive readings of the clock, in
    order, starting with the first one taken after Start. *)
Theorem run_stamps_records model base_df v w :
  v ∈ vehicle_ids ->
  running (session w) <> Some true ->
  Forall (classified model) (take replay_limit base_df) ->
  (forall k, disk_free w = Some k ->
             length (take replay_limit base_df) <= k) ->
  exists w' records,
    interact model base_df LiveMonitoring v true w = (Done LiveView, w')
    /\ log_data (session w') = Some records
    /\ Forall (fun r => vehicle_id r = v
                        /\ driver_mapping !! v = Some (driver r)) records
    /\ timestamp <$> records
       = clock w <$> seq (tick w) (length (take replay_limit base_df)).
Proof.
  intros Hv Hidle Hall Hfree. destruct (driver_known v Hv) as [d Hd].
  set (w1 := set_session (mk_session_state (Some true) (Some []))
               (snd (os_makedirs "logs" w))).
  assert (Hrun1 : script model base_df LiveMonitoring v true w = (Rerun, w1)).
  { rewrite (script_live _ _ _ _ _ _ Hd).
    rewrite live_start by exact Hidle. reflexivity. }
  destruct (pass_exact model base_df v d w1 [] Hd eq_refl eq_refl Hall Hfree)
    as (w' & Hrun2 & Hsession & _).
  unfold interact. rewrite Hrun1, Hrun2.
  eexists w', _. split; [reflexivity|]. rewrite Hsession.
  split; [reflexivity|]. split.
  - eapply Forall_impl; [apply pass_records_identity|].
    intros r [Hr1 Hr2]. split; [exact Hr1 | now rewrite Hr2].
  - apply pass_records_stamps. exact Hall.
Qed.

Lemma run_stamps_records_witness :
  let model := mk_classifier (fun _ => Some [1%Q])
                             (fun _ => Some [[(1#4)%Q; (3#4)%Q]]) in
  let row := scenario_reading (mk_datetime 2024 3 7 9 5 1 0) 0 0 0 in
  let w := mk_world (mk_session_state None None)
                    (mk_filesystem ∅ ∅)
                    (fun n => mk_datetime 2024 3 7 9 5 (Z.of_nat n) 0)
                    7 None None in
  exists w' records,
    interact model [row; row] LiveMonitoring "KA-02" true w
    = (Done LiveView, w')
    /\ log_data (session w') = Some records
    /\ timestamp <$> records
       = [mk_datetime 2024 3 7 9 5 7 0; mk_datetime 2024 3 7 9 5 8 0].
Proof.
  intros model row w.
  assert (Hv : "KA-02" ∈ vehicle_ids)
    by (unfold vehicle_ids; rewrite !elem_of_cons;
        repeat ((left; reflexivity) || right)).
  assert (Hall : Forall (classified model) (take replay_limit [row; row])).
  { change (take replay_limit [row; row]) with [row; row].
    repeat constructor; eexists; reflexivity. }
  destruct (run_stamps_records model [row; row] "KA-02" w Hv
              ltac:(discriminate) Hall ltac:(intros k Hk; discriminate Hk))
    as (w' & records & H1 & H2 & _ & H4).
  exists w', records. split; [exact H1|]. split; [exact H2 | exact H4].
Defined.

(** * Further properties of the Dashboard *)

(** The page as one case analysis on what the file system holds. *)
Lemma dashboard_cases v w :
  dashboard v w =
    (let folder := log_folder_of v in
     if bool_decide (folder ∈ fs_dirs (fs w)) then
       match sorted_reverse (listing folder (fs w)) with
       | [] => Done NoLogFiles
       | first :: _ =>
           match fs_files (fs w) !! path_join folder first with
           | Some log_df =>
               Done (Loaded (path_join folder first) (length log_df)
                            (foldr Z.add 0%Z (prediction <$> log_df)))
           | None => Raise OSError
           end
       end
     else if bool_decide (is_Some (fs_files (fs w) !! folder))
          then Raise OSError
          else Done NoLogsFound,
     w).
Proof.
  cbv zeta.
  destruct (decide (log_folder_of v ∈ fs_dirs (fs w))) as [Hdir|Hdir].
  - rewrite (bool_decide_eq_true_2 _ Hdir). unfold dashboard.
    erewrite bind_done
      by (unfold os_path_exists; rewrite (bool_decide_eq_true_2 _ Hdir);
          reflexivity).
    cbn [orb negb].
    erewrite bind_done
      by (unfold os_listdir; rewrite (bool_decide_eq_true_2 _ Hdir);
          reflexivity).
    destruct (sorted_reverse (listing (log_folder_of v) (fs w)))
      as [|first rest]; [reflexivity|].
    destruct (fs_files (fs w) !! path_join (log_folder_of v) first)
      as [log_df|] eqn:Hfile.
    + erewrite bind_done by (unfold read_csv; rewrite Hfile; reflexivity).
      reflexivity.
    + erewrite bind_raise by (unfold read_csv; rewrite Hfile; reflexivity).
      reflexivity.
  - rewrite (bool_decide_eq_false_2 _ Hdir). unfold dashboard.
    erewrite bind_done
      by (unfold os_path_exists; rewrite (bool_decide_eq_false_2 _ Hdir);
          reflexivity).
    cbn [orb].
    destruct (bool_decide (is_Some (fs_files (fs w) !! log_folder_of v)));
      cbn [negb]; [|reflexivity].
    erewrite bind_raise
      by (unfold os_listdir; rewrite (bool_decide_eq_false_2 _ Hdir);
          reflexivity).
    reflexivity.
Qed.

(** The page only looks: it hands back the world it was given. *)
Lemma dashboard_world v w : snd (dashboard v w) = w.
Proof. now rewrite dashboard_cases. Qed.

Lemma dashboard_no_rerun v w : fst (dashboard v w) <> Rerun.
Proof.
  rewrite dashboard_cases. cbn [fst].
  repeat match goal with
         | |- context [if ?b then _ else _] => destruct b
         | |- context [match ?x with _ => _ end] => destruct x
         end; discriminate.
Qed.

(** X10. A run of the script on the Dashboard page, however it ends,
    leaves the session state, every file, the disk and the clock as they
    were, and never asks for a rerun: looking at the dashboard cannot
    disturb a session or a log. *)
Theorem dashboard_reads_only model base_df v button w out w' :
  script model base_df Dashboard v button w = (out, w') ->
  session w' = session w
  /\ fs_files (fs w') = fs_files (fs w)
  /\ tick w' = tick w
  /\ disk_free w' = disk_free w
  /\ out <> Rerun.
Proof.
  unfold script. unfold mbind at 1, M_bind at 1. cbn [os_makedirs].
  unfold mbind at 1, M_bind at 1, call, raise.
  destruct (driver_mapping !! v) as [d|]; cbn [mret M_ret].
  - unfold mbind at 1, M_bind at 1.
    pose proof (dashboard_world v
      (set_fs (mk_filesystem
                 (fs_dirs (fs w) ∪ list_to_set (path_prefixes "" "logs"))
                 (fs_files (fs w))) (disk_free w) w)) as Hw.
    pose proof (dashboard_no_rerun v
      (set_fs (mk_filesystem
                 (fs_dirs (fs w) ∪ list_to_set (path_prefixes "" "logs"))
                 (fs_files (fs w))) (disk_free w) w)) as Hr.
    destruct (dashboard v _) as [[view| |e] w1]; cbn [fst snd] in Hw, Hr;
      [| congruence |]; intros [= <- <-]; subst w1;
      (repeat split; discriminate).
  - intros [= <- <-]. repeat split; discriminate.
Qed.

Lemma dashboard_reads_only_witness :
  session (snd (script picky_model [] Dashboard "KA-01" true two_logs))
  = session two_logs
  /\ fs_files (fs (snd (script picky_model [] Dashboard "KA-01" true two_logs)))
     = fs_files (fs two_logs).
Proof.
  destruct (script picky_model [] Dashboard "KA-01" true two_logs)
    as [out w'] eqn:Hrun.
  destruct (dashboard_reads_only _ _ _ _ _ _ _ Hrun) as (H1 & H2 & _).
  split; [exact H1 | exact H2].
Defined.

(** X11. The two warnings.  The page reports that the vehicle has no
    logs exactly when nothing exists at its folder's path, and that there
    are no log files exactly when the folder is a directory with nothing
    in it. *)
Theorem dashboard_warnings v w :
  (dashboard v w = (Done NoLogsFound, w)
   <-> (log_folder_of v ∉ fs_dirs (fs w))
       /\ fs_files (fs w) !! log_folder_of v = None)
  /\ (dashboard v w = (Done NoLogFiles, w)
      <-> (log_folder_of v ∈ fs_dirs (fs w))
          /\ listing (log_folder_of v) (fs w) = []).
Proof.
  rewrite dashboard_cases. cbv zeta.
  destruct (bool_decide (log_folder_of v ∈ fs_dirs (fs w))) eqn:Hdir.
  - apply bool_decide_eq_true in Hdir.
    destruct (listing (log_folder_of v) (fs w)) as [|name names] eqn:Hl.
    + cbn [sorted_reverse foldr]. split; split;
        solve [ discriminate | tauto | intros [H1 H2]; tauto ].
    + destruct (sorted_reverse_head (name :: names))
        as (first & rest & -> & _); [discriminate|].
      destruct (fs_files (fs w) !! path_join (log_folder_of v) first);
        split; split;
        solve [ discriminate | intros [H1 H2]; discriminate H2
              | intros [H1 H2]; tauto ].
  - apply bool_decide_eq_false in Hdir.
    destruct (fs_files (fs w) !! log_folder_of v) as [rows|] eqn:Hfile.
    + rewrite bool_decide_eq_true_2 by eauto.
      split; split;
        solve [ discriminate | intros [H1 H2]; discriminate H2
              | intros [H1 H2]; tauto ].
    + rewrite bool_decide_eq_false_2 by (intros [? ?]; discriminate).
      split; split;
        solve [ discriminate | tauto | intros [H1 H2]; tauto ].
Qed.

Lemma sum_of_predictions (rows : list row_log) :
  Forall (fun r => prediction r = 0 \/ prediction r = 1)%Z rows ->
  foldr Z.add 0%Z (prediction <$> rows)
  = Z.of_nat (length (filter (fun r => prediction r = 1%Z) rows)).
Proof.
  induction 1 as [|r rows Hr _ IH]; [reflexivity|].
  rewrite fmap_cons, filter_cons. cbn [foldr]. rewrite IH.
  destruct Hr as [Hr|Hr]; rewrite Hr.
  - rewrite decide_False by discriminate. reflexivity.
  - rewrite decide_True by reflexivity. cbn [length]. lia.
Qed.

(** X12. The two counters.  When a log is loaded, Total Records is the
    number of rows of that file, and for a log whose predictions are all
    0 or 1 Breakdown Events is the number of rows predicted 1, so it is
    at most Total Records. *)
Theorem dashboard_counters v w latest n e w' :
  dashboard v w = (Done (Loaded latest n e), w') ->
  exists log_df,
    fs_files (fs w) !! latest = Some log_df
    /\ n = length log_df
    /\ (Forall (fun r => prediction r = 0 \/ prediction r = 1)%Z log_df ->
        e = Z.of_nat (length (filter (fun r => prediction r = 1%Z) log_df))
        /\ (0 <= e <= Z.of_nat n)%Z).
Proof.
  rewrite dashboard_cases. cbv zeta.
  destruct (bool_decide (log_folder_of v ∈ fs_dirs (fs w))).
  2:{ destruct (bool_decide (is_Some (fs_files (fs w) !! log_folder_of v)));
        discriminate. }
  destruct (sorted_reverse (listing (log_folder_of v) (fs w)))
    as [|first rest]; [discriminate|].
  destruct (fs_files (fs w) !! path_join (log_folder_of v) first)
    as [log_df|] eqn:Hfile; [|discriminate].
  intros [= <- <- <- <-]. exists log_df. split; [exact Hfile|].
  split; [reflexivity|]. intros Hall.
  rewrite (sum_of_predictions _ Hall). split; [reflexivity|].
  pose proof (length_filter (fun r => prediction r = 1%Z) log_df). lia.
Qed.

Lemma dashboard_counters_witness :
  exists log_df,
    fs_files (fs two_logs) !! "logs/KA-01/2024-03-07_10-00-03_log.csv"
    = Some log_df
    /\ 1 = length log_df.
Proof.
  destruct (dashboard_counters "KA-01" two_logs
              "logs/KA-01/2024-03-07_10-00-03_log.csv" 1 0 two_logs)
    as (log_df & H1 & H2 & _).
  - vm_compute. reflexivity.
  - exists log_df. split; [exact H1 | exact H2].
Defined.

(** * How flushes and the Dashboard compose *)

Lemma listing_elem folder f name :
  name ∈ listing folder f
  <-> exists p, (is_Some (fs_files f !! p) \/ p ∈ fs_dirs f)
                /\ entry_of folder p = Some name.
Proof.
  unfold listing. rewrite list_elem_of_omap. split.
  - intros (p & Hp & He). exists p. split; [|exact He].
    apply elem_of_elements, elem_of_union in Hp as [Hp|Hp]; [left|now right].
    now apply elem_of_dom.
  - intros (p & Hp & He). exists p. split; [|exact He].
    apply elem_of_elements, elem_of_union. destruct Hp as [Hp|Hp];
      [left; now apply elem_of_dom | now right].
Qed.

(** The listing of [folder] after a file is written at [path] and
    directories are made none of which lies in [folder]. *)
Lemma listing_after_write folder f f' path rows name :
  fs_files f' = <[path := rows]> (fs_files f) ->
  (forall p, p ∈ fs_dirs f -> p ∈ fs_dirs f') ->
  (forall p, p ∈ fs_dirs f' -> p ∈ fs_dirs f \/ entry_of folder p = None) ->
  name ∈ listing folder f'
  <-> name ∈ listing folder f \/ entry_of folder path = Some name.
Proof.
  intros Hfiles Hsub Hnew. rewrite !listing_elem, Hfiles. split.
  - intros (p & [Hp|Hp] & He).
    + destruct (decide (path = p)) as [->|Hne]; [now right|].
      rewrite lookup_insert_ne in Hp by exact Hne. left. eauto.
    + destruct (Hnew p Hp) as [Hold|Hnone]; [left; eauto | congruence].
  - intros [(p & [Hp|Hp] & He)|He].
    + exists p. split; [left|exact He].
      destruct (decide (path = p)) as [->|Hne].
      * rewrite lookup_insert_eq. eauto.
      * now rewrite lookup_insert_ne.
    + exists p. split; [right; now apply Hsub | exact He].
    + exists path. split; [left; rewrite lookup_insert_eq; eauto | exact He].
Qed.

(** The first name of the descending sort depends only on which names
    there are. *)
Lemma sorted_reverse_head_ext (l l' : list string) :
  (forall x, x ∈ l <-> x ∈ l') ->
  head (sorted_reverse l) = head (sorted_reverse l').
Proof.
  intros Hext. destruct l as [|a l].
  - destruct l' as [|b l']; [reflexivity|].
    exfalso. apply (elem_of_nil b), Hext. now left.
  - destruct l' as [|b l'].
    { exfalso. apply (elem_of_nil a), Hext. now left. }
    destruct (sorted_reverse_head (a :: l)) as (m & rest & -> & Hm & Hmax);
      [discriminate|].
    destruct (sorted_reverse_head (b :: l'))
      as (m' & rest' & -> & Hm' & Hmax'); [discriminate|].
    cbn [head]. f_equal. apply String.compare_eq_iff.
    pose proof (Hmax m' (proj2 (Hext m') Hm')) as H1.
    pose proof (Hmax' m (proj1 (Hext m) Hm)) as H2.
    rewrite String.compare_antisym in H1.
    destruct (String.compare m m'); [reflexivity | | congruence].
    exfalso. apply H1. reflexivity.
Qed.

(** What a flush may do to the file system: nothing, or make the
    vehicle's folder and write, in full or in part, at the path of the
    time. *)
Lemma flush_log_fs v w out w' :
  flush_log v w = (out, w') ->
  fs w' = fs w
  \/ exists rows,
       fs w' = mk_filesystem
                 (fs_dirs (fs w)
                  ∪ list_to_set (path_prefixes "" (log_folder_of v)))
                 (<[log_path_of v (clock w (tick w)) := rows]>
                    (fs_files (fs w))).
Proof.
  unfold flush_log, get_log_data, call, raise.
  unfold mbind at 1, M_bind at 1.
  destruct (log_data (session w)) as [[|r buf]|]; cbn [mret M_ret skip].
  - intros [= <- <-]. now left.
  - unfold mbind, M_bind, datetime_now, os_makedirs, to_csv, set_fs.
    cbn [fs fs_dirs fs_files disk_free session clock tick placeholder].
    intros H. right. destruct (disk_free w) as [k|].
    + destruct (length (r :: buf) <=? k)%nat; injection H as <- <-;
        eexists; reflexivity.
    + injection H as <- <-. eexists; reflexivity.
  - intros [= <- <-]. now left.
Qed.

(** The page shows the same on two file systems that agree on the
    folder, on its listing and on the files listed. *)
Lemma dashboard_ext v w1 w2 :
  (log_folder_of v ∈ fs_dirs (fs w1) <-> log_folder_of v ∈ fs_dirs (fs w2)) ->
  (is_Some (fs_files (fs w1) !! log_folder_of v)
   <-> is_Some (fs_files (fs w2) !! log_folder_of v)) ->
  (forall name, name ∈ listing (log_folder_of v) (fs w1)
                <-> name ∈ listing (log_folder_of v) (fs w2)) ->
  (forall name, name ∈ listing (log_folder_of v) (fs w1) ->
     fs_files (fs w1) !! path_join (log_folder_of v) name
     = fs_files (fs w2) !! path_join (log_folder_of v) name) ->
  fst (dashboard v w1) = fst (dashboard v w2).
Proof.
  intros Hdir Hfile Hlist Hread. rewrite !dashboard_cases. cbv zeta.
  cbn [fst]. rewrite (bool_decide_ext _ _ Hdir), (bool_decide_ext _ _ Hfile).
  destruct (bool_decide (log_folder_of v ∈ fs_dirs (fs w2))); [|reflexivity].
  pose proof (sorted_reverse_head_ext _ _ Hlist) as Hhead.
  destruct (listing (log_folder_of v) (fs w1)) as [|a l] eqn:Hl1.
  - destruct (sorted_reverse (listing (log_folder_of v) (fs w2)));
      [reflexivity | discriminate Hhead].
  - destruct (sorted_reverse_head (a :: l))
      as (first & rest & Hsort & Hin & _); [discriminate|].
    rewrite Hsort in Hhead |- *.
    destruct (sorted_reverse (listing (log_folder_of v) (fs w2)))
      as [|first' rest']; [discriminate Hhead|].
    injection Hhead as <-. now rewrite (Hread first Hin).
Qed.

Lemma folder_prefixes v :
  v ∈ vehicle_ids ->
  path_prefixes "" (log_folder_of v) = ["logs"; log_folder_of v].
Proof.
  unfold vehicle_ids. rewrite !elem_of_cons, elem_of_nil.
  intros [->|[->|[->|[->|[->|[]]]]]]; reflexivity.
Qed.

Lemma entry_of_folders v v' :
  v ∈ vehicle_ids -> v' ∈ vehicle_ids ->
  forall p, p ∈ path_prefixes "" (log_folder_of v') ->
            entry_of (log_folder_of v) p = None.
Proof.
  intros Hv Hv' p. rewrite (folder_prefixes v' Hv').
  revert Hv Hv'. unfold vehicle_ids. rewrite !elem_of_cons, !elem_of_nil.
  intros [->|[->|[->|[->|[->|[]]]]]] [->|[->|[->|[->|[->|[]]]]]]
         [->|[->|[]]]; reflexivity.
Qed.

Lemma entry_of_other v v' t :
  v ∈ vehicle_ids -> v' ∈ vehicle_ids -> v <> v' ->
  entry_of (log_folder_of v) (log_path_of v' t) = None.
Proof.
  intros Hv Hv' Hne. rewrite (log_path_unfold v' t Hv').
  generalize (log_name (strftime t)). intros name.
  revert Hv Hv' Hne. unfold vehicle_ids.
  rewrite !elem_of_cons, !elem_of_nil.
  intros [->|[->|[->|[->|[->|[]]]]]] [->|[->|[->|[->|[->|[]]]]]] Hne;
    (congruence || reflexivity).
Qed.

Lemma strip_prefix_inv pre : forall s r,
  strip_prefix pre s = Some r -> s = pre +:+ r.
Proof.
  induction pre as [|c pre IH]; intros s r; cbn [strip_prefix].
  - now intros [= ->].
  - destruct s as [|d s]; [discriminate|].
    destruct (Ascii.eqb c d) eqn:E; [|discriminate].
    apply Ascii.eqb_eq in E as ->. intros H.
    change (String d s = String d (pre +:+ r)). now rewrite (IH s r H).
Qed.

(** The listed name of a path gives the path back through
    [os.path.join]. *)
Lemma path_join_entry v p name :
  v ∈ vehicle_ids ->
  entry_of (log_folder_of v) p = Some name ->
  path_join (log_folder_of v) name = p.
Proof.
  intros Hv. unfold entry_of.
  destruct (strip_prefix (log_folder_of v +:+ "/") p) as [r|] eqn:Hs;
    [|discriminate].
  destruct (String.eqb r "" || has_sep r) eqn:Hr; [discriminate|].
  intros [= <-]. apply strip_prefix_inv in Hs. subst p.
  apply orb_false_iff in Hr as [_ Hr].
  destruct (vehicle_id_shape v Hv) as [_ Hsep].
  unfold path_join. rewrite Hsep.
  assert (Hstart : starts_with_sep r = false).
  { destruct r as [|c r]; [reflexivity|]. cbn [has_sep] in Hr.
    now apply orb_false_iff in Hr as [Hr _]. }
  rewrite Hstart. symmetry. apply string_app_assoc.
Qed.

Lemma log_path_not_folder v v' t :
  v ∈ vehicle_ids -> v' ∈ vehicle_ids ->
  log_path_of v' t <> log_folder_of v.
Proof.
  intros Hv Hv' H. apply (f_equal String.length) in H.
  rewrite (log_path_unfold v' t Hv') in H. unfold log_folder_of, log_name in H.
  rewrite !string_length_app, strftime_length in H.
  destruct (vehicle_id_shape v Hv) as [Hl _].
  destruct (vehicle_id_shape v' Hv') as [Hl' _].
  rewrite Hl, Hl' in H. discriminate H.
Qed.

(** X13. A flush for one vehicle, however it ends, does not change what
    the Dashboard shows for another vehicle. *)
Theorem flush_leaves_other_vehicles v v' w out w' :
  v ∈ vehicle_ids -> v' ∈ vehicle_ids -> v <> v' ->
  flush_log v' w = (out, w') ->
  fst (dashboard v w') = fst (dashboard v w).
Proof.
  intros Hv Hv' Hne Hflush.
  destruct (flush_log_fs _ _ _ _ Hflush) as [Hsame|[rows Hfs]].
  { rewrite !dashboard_cases. cbn [fst]. now rewrite Hsame. }
  assert (Hnew : forall p,
            p ∈ (list_to_set (path_prefixes "" (log_folder_of v'))
                 : gset string) ->
            entry_of (log_folder_of v) p = None).
  { intros p Hp. apply elem_of_list_to_set in Hp.
    now apply (entry_of_folders v v'). }
  assert (Hlist : forall name,
            name ∈ listing (log_folder_of v) (fs w')
            <-> name ∈ listing (log_folder_of v) (fs w)).
  { intros name.
    rewrite (listing_after_write (log_folder_of v) (fs w) (fs w')
               (log_path_of v' (clock w (tick w))) rows name).
    - rewrite (entry_of_other v v' _ Hv Hv' Hne). intuition discriminate.
    - now rewrite Hfs.
    - intros p Hp. rewrite Hfs. cbn [fs_dirs]. apply elem_of_union. now left.
    - intros p. rewrite Hfs. cbn [fs_dirs]. rewrite elem_of_union.
      intros [Hp|Hp]; [now left | right; now apply Hnew]. }
  apply dashboard_ext.
  - rewrite Hfs. cbn [fs_dirs]. rewrite elem_of_union. split; [|now left].
    intros [H|H]; [exact H|]. exfalso.
    apply elem_of_list_to_set in H.
    rewrite (folder_prefixes v' Hv') in H.
    apply elem_of_cons in H as [H|H]; [discriminate H|].
    apply list_elem_of_singleton in H. unfold log_folder_of in H.
    apply string_app_inj in H as [_ H]; [congruence | reflexivity].
  - rewrite Hfs. cbn [fs_files].
    now rewrite lookup_insert_ne by now apply log_path_not_folder.
  - exact Hlist.
  - intros name Hin. rewrite Hfs. cbn [fs_files].
    apply lookup_insert_ne. intros Heq.
    apply Hlist, listing_elem in Hin as (p & _ & He).
    rewrite (path_join_entry v p name Hv He) in Heq. subst p.
    rewrite (entry_of_other v v' _ Hv Hv' Hne) in He. discriminate He.
Qed.

Lemma flush_leaves_other_vehicles_witness :
  let row := scenario_reading (mk_datetime 2024 3 7 9 5 1 0) 0 0 0 in
  let r := enriched "KA-02" "Priya" row 1 (3#4)
             (mk_datetime 2024 3 7 11 0 0 0) in
  let w := set_session (mk_session_state (Some false) (Some [r])) two_logs in
  fst (dashboard "KA-01" (snd (flush_log "KA-02" w)))
  = Done (Loaded "logs/KA-01/2024-03-07_10-00-03_log.csv" 1 0).
Proof.
  intros row r w.
  assert (Hv : "KA-01" ∈ vehicle_ids) by (apply elem_of_cons; now left).
  assert (Hv' : "KA-02" ∈ vehicle_ids)
    by (unfold vehicle_ids; rewrite !elem_of_cons;
        repeat ((left; reflexivity) || right)).
  destruct (flush_log "KA-02" w) as [out w'] eqn:Hflush. cbn [snd].
  rewrite (flush_leaves_other_vehicles "KA-01" "KA-02" w out w' Hv Hv'
             ltac:(discriminate) Hflush).
  vm_compute. reflexivity.
Defined.

(** The page after a log was written for the vehicle at a time whose
    name is not below any name already listed. *)
Lemma dashboard_after_write v w0 w1 t rows :
  v ∈ vehicle_ids ->
  fs_files (fs w1) = <[log_path_of v t := rows]> (fs_files (fs w0)) ->
  (forall p, p ∈ fs_dirs (fs w0) -> p ∈ fs_dirs (fs w1)) ->
  (forall p, p ∈ fs_dirs (fs w1) ->
             p ∈ fs_dirs (fs w0) \/ p = "logs" \/ p = log_folder_of v) ->
  log_folder_of v ∈ fs_dirs (fs w1) ->
  (forall name, name ∈ listing (log_folder_of v) (fs w0) ->
     String.compare name (log_name (strftime t)) <> Gt) ->
  dashboard v w1
  = (Done (Loaded (log_path_of v t) (length rows)
                  (foldr Z.add 0%Z (prediction <$> rows))), w1).
Proof.
  intros Hv Hfiles Hsub Hnew Hdir Hmax.
  assert (Hlist : forall name,
            name ∈ listing (log_folder_of v) (fs w1)
            <-> name ∈ listing (log_folder_of v) (fs w0)
                \/ name = log_name (strftime t)).
  { intros name.
    rewrite (listing_after_write (log_folder_of v) (fs w0) (fs w1)
               (log_path_of v t) rows name Hfiles Hsub).
    - rewrite (entry_of_log v t Hv). intuition congruence.
    - intros p Hp. destruct (Hnew p Hp) as [H|[->| ->]]; [now left| |];
        right; apply (entry_of_folders v v Hv Hv);
        rewrite (folder_prefixes v Hv); [now left | right; now left]. }
  rewrite dashboard_cases. cbv zeta.
  rewrite (bool_decide_eq_true_2 _ Hdir).
  destruct (sorted_reverse_head (listing (log_folder_of v) (fs w1)))
    as (first & rest & -> & Hin & Hge).
  { intros Hnil. assert (H : log_name (strftime t) ∈ @nil string)
      by (rewrite <- Hnil; apply Hlist; now right).
    now apply elem_of_nil in H. }
  assert (Hfirst : first = log_name (strftime t)).
  { apply Hlist in Hin as [Hin|Hin]; [|exact Hin].
    apply String.compare_eq_iff. specialize (Hmax first Hin).
    pose proof (Hge (log_name (strftime t)) (proj2 (Hlist _) (or_intror eq_refl)))
      as Hle.
    rewrite String.compare_antisym in Hle.
    destruct (String.compare first (log_name (strftime t)));
      [reflexivity | | congruence].
    exfalso. apply Hle. reflexivity. }
  subst first. fold (log_path_of v t).
  now rewrite Hfiles, lookup_insert_eq.
Qed.

(** X14. Stop, then look: after a Stop that flushes the buffer, the
    Dashboard of that vehicle loads the log just written, with as many
    records as the buffer held and the sum of its predictions, provided
    no log already in the folder has a later name. *)
Theorem stop_then_dashboard model base_df v w buf :
  v ∈ vehicle_ids ->
  running (session w) = Some true ->
  log_data (session w) = Some buf ->
  buf <> [] ->
  (forall k, disk_free w = Some k -> length buf <= k) ->
  (forall name, name ∈ listing (log_folder_of v) (fs w) ->
     String.compare name (log_name (strftime (clock w (tick w)))) <> Gt) ->
  exists w',
    interact model base_df LiveMonitoring v true w = (Done LiveView, w')
    /\ fst (script model base_df Dashboard v false w')
       = Done (DashboardView
                 (Loaded (log_path_of v (clock w (tick w))) (length buf)
                         (foldr Z.add 0%Z (prediction <$> buf)))).
Proof.
  intros Hv Hrun Hbuf Hne Hfree Hmax. destruct (driver_known v Hv) as [d Hd].
  unfold interact. rewrite (script_live _ _ _ _ _ _ Hd).
  rewrite (live_stop model base_df v d (snd (os_makedirs "logs" w)) buf
             Hrun Hbuf).
  erewrite flush_log_rows by (reflexivity || exact Hne).
  edestruct to_csv_done as [free Hcsv]; [|rewrite Hcsv].
  { exact Hfree. }
  rewrite (script_live _ _ _ _ _ _ Hd).
  erewrite live_idle by reflexivity.
  eexists. split; [reflexivity|].
  unfold script. erewrite bind_done by reflexivity.
  unfold mbind at 1, M_bind at 1. rewrite Hd. cbn [call mret M_ret].
  unfold mbind at 1, M_bind at 1.
  erewrite (dashboard_after_write v w _ (clock w (tick w)) buf Hv);
    [reflexivity | reflexivity | | | | exact Hmax].
  - intros p Hp. cbn. rewrite !elem_of_union. tauto.
  - intros p. cbn -[path_prefixes log_folder_of].
    rewrite !elem_of_union, !elem_of_list_to_set, (folder_prefixes v Hv).
    change (path_prefixes "" "logs") with ["logs"].
    rewrite !elem_of_cons, !elem_of_nil. tauto.
  - cbn -[path_prefixes log_folder_of].
    rewrite !elem_of_union, !elem_of_list_to_set, (folder_prefixes v Hv).
    rewrite !elem_of_cons. tauto.
Qed.

Lemma stop_then_dashboard_witness :
  let row := scenario_reading (mk_datetime 2024 3 7 9 5 1 0) 0 0 0 in
  let r := enriched "KA-01" "Rishab" row 1 (3#4)
             (mk_datetime 2024 3 7 10 59 0 0) in
  let w := set_session (mk_session_state (Some true) (Some [r; r; r]))
             two_logs in
  exists w',
    interact picky_model [] LiveMonitoring "KA-01" true w
    = (Done LiveView, w')
    /\ fst (script picky_model [] Dashboard "KA-01" false w')
       = Done (DashboardView
                 (Loaded "logs/KA-01/2024-03-07_11-00-00_log.csv" 3 3)).
Proof.
  intros row r w.
  assert (Hv : "KA-01" ∈ vehicle_ids) by (apply elem_of_cons; now left).
  assert (Hl : listing (log_folder_of "KA-01") (fs w)
               = ["2024-03-07_10-00-03_log.csv";
                  "2024-03-07_09-59-58_log.csv"])
    by (vm_compute; reflexivity).
  destruct (stop_then_dashboard picky_model [] "KA-01" w [r; r; r] Hv
              eq_refl eq_refl ltac:(discriminate)
              ltac:(intros k Hk; discriminate Hk))
    as (w' & H1 & H2).
  - intros name. rewrite Hl. intros Hin.
    apply elem_of_cons in Hin as [->|Hin];
      [|apply list_elem_of_singleton in Hin as ->];
      vm_compute; discriminate.
  - exists w'. split; [exact H1 | exact H2].
Defined.

(** ** What a flush never does, and what two flushes do *)

Lemma flush_log_no_empty v w out w' :
  flush_log v w = (out, w') ->
  (forall e, out <> Raise e) ->
  forall p, fs_files (fs w') !! p = Some [] ->
            fs_files (fs w) !! p = Some [].
Proof.
  unfold flush_log, get_log_data, call, raise.
  unfold mbind at 1, M_bind at 1.
  destruct (log_data (session w)) as [[|r buf]|]; cbn [mret M_ret skip].
  - now intros [= <- <-].
  - unfold mbind, M_bind, datetime_now, os_makedirs, to_csv, set_fs.
    cbn [fs fs_dirs fs_files disk_free session clock tick placeholder].
    intros H Hok p. destruct (disk_free w) as [k|].
    + destruct (length (r :: buf) <=? k)%nat; injection H as <- <-.
      * cbn [fs fs_files]. intros Hp.
        destruct (decide (log_path_of v (clock w (tick w)) = p)) as [<-|Hne].
        -- unfold log_path_of in Hp. rewrite lookup_insert_eq in Hp.
           discriminate Hp.
        -- unfold log_path_of in Hp, Hne.
           now rewrite lookup_insert_ne in Hp.
      * now destruct (Hok OSError).
    + injection H as <- <-. cbn [fs fs_files]. intros Hp.
      destruct (decide (log_path_of v (clock w (tick w)) = p)) as [<-|Hne].
      * unfold log_path_of in Hp. rewrite lookup_insert_eq in Hp.
        discriminate Hp.
      * unfold log_path_of in Hp, Hne. now rewrite lookup_insert_ne in Hp.
  - now intros [= <- <-].
Qed.

Lemma flushed_written v w w' buf :
  log_data (session w) = Some buf -> buf <> [] ->
  flush_log v w = (Done tt, w') ->
  fs_files (fs w')
  = <[log_path_of v (clock w (tick w)) := buf]> (fs_files (fs w)).
Proof.
  intros Hbuf Hne Hflush. rewrite (flush_log_rows _ _ _ Hbuf Hne) in Hflush.
  unfold to_csv in Hflush.
  cbn [os_makedirs datetime_now snd set_fs fs fs_dirs fs_files disk_free]
    in Hflush.
  destruct (disk_free w) as [k|].
  - destruct (length buf <=? k)%nat; [|discriminate Hflush].
    now injection Hflush as <-.
  - now injection Hflush as <-.
Qed.

(** X15. Two flushes for one vehicle within one second: the second
    replaces the file of the first, so only the second session's records
    remain at that path. *)
Theorem same_second_flush_overwrites v w1 w1' w2 w2' buf1 buf2 :
  log_data (session w1) = Some buf1 -> buf1 <> [] ->
  flush_log v w1 = (Done tt, w1') ->
  fs w2 = fs w1' ->
  log_data (session w2) = Some buf2 -> buf2 <> [] ->
  same_second (clock w1 (tick w1)) (clock w2 (tick w2)) ->
  flush_log v w2 = (Done tt, w2') ->
  fs_files (fs w2')
  = <[log_path_of v (clock w1 (tick w1)) := buf2]> (fs_files (fs w1)).
Proof.
  intros Hb1 Hn1 Hf1 Hfs Hb2 Hn2 Hsame Hf2.
  pose proof (flushed_written v w1 w1' buf1 Hb1 Hn1 Hf1) as Hfiles1.
  pose proof (flushed_written v w2 w2' buf2 Hb2 Hn2 Hf2) as Hfiles2.
  rewrite Hfiles2, Hfs, Hfiles1. unfold log_path_of.
  rewrite (strftime_same_second _ _ Hsame). apply insert_insert_eq.
Qed.

Lemma same_second_flush_overwrites_witness :
  let row := scenario_reading (mk_datetime 2024 3 7 9 5 1 0) 0 0 0 in
  let r1 := enriched "KA-01" "Rishab" row 1 (3#4)
              (mk_datetime 2024 3 7 9 5 2 0) in
  let r2 := enriched "KA-01" "Rishab" row 0 (1#4)
              (mk_datetime 2024 3 7 9 5 3 0) in
  let w1 := mk_world (mk_session_state (Some false) (Some [r1; r1]))
                     (mk_filesystem {["logs"]} ∅)
                     (fun n => mk_datetime 2024 3 7 9 5 4 (Z.of_nat n))
                     0 None None in
  let w2 := set_session (mk_session_state (Some false) (Some [r2]))
              (snd (flush_log "KA-01" w1)) in
  fs_files (fs (snd (flush_log "KA-01" w2)))
  = <["logs/KA-01/2024-03-07_09-05-04_log.csv" := [r2]]> ∅.
Proof.
  intros row r1 r2 w1 w2.
  rewrite (same_second_flush_overwrites "KA-01" w1 (snd (flush_log "KA-01" w1))
             w2 (snd (flush_log "KA-01" w2)) [r1; r1] [r2]);
    try reflexivity; try discriminate.
  repeat split.
Defined.

Lemma live_monitoring_no_empty model base_df v d button w out w' :
  live_monitoring model base_df v d button w = (out, w') ->
  (forall e, out <> Raise e) ->
  forall p, fs_files (fs w') !! p = Some [] ->
            fs_files (fs w) !! p = Some [].
Proof.
  rewrite live_monitoring_init.
  change (fs_files (fs w)) with (fs_files (fs (snd (init_session w)))).
  assert (Hinit : exists r l,
            running (session (snd (init_session w))) = Some r
            /\ log_data (session (snd (init_session w))) = Some l)
    by (eexists _, _; split; reflexivity).
  generalize dependent (snd (init_session w)). clear w.
  intros w (r & l & Hr & Hl) Hrun Hok p.
  destruct r, button.
  - rewrite (live_stop _ _ _ _ _ _ Hr Hl) in Hrun.
    destruct (flush_log v _) as [[[]| |e] w1] eqn:Hflush;
      injection Hrun as <- <-;
      try (now destruct (Hok e));
      apply (flush_log_no_empty _ _ _ _ Hflush); discriminate.
  - rewrite (live_resume _ _ _ _ _ _ Hr Hl) in Hrun.
    unfold mbind at 1, M_bind at 1 in Hrun.
    destruct (monitor_loop model v d _ w) as [[[]| |e] w1] eqn:Hloop;
      destruct (monitor_loop_keeps _ _ _ _ _ _ _ Hloop)
        as [(Hfs & _ & _ & Hrun1 & _) Hne].
    + unfold mbind at 1, M_bind at 1, get_running, call in Hrun.
      rewrite Hrun1, Hr in Hrun. cbn [mret M_ret] in Hrun.
      unfold mbind at 1, M_bind at 1 in Hrun. cbn [set_running] in Hrun.
      rewrite <- Hfs. change (fs w1) with
        (fs (set_session (mk_session_state (Some false)
                            (log_data (session w1))) w1)).
      apply (flush_log_no_empty _ _ _ _ Hrun Hok).
    + congruence.
    + injection Hrun as <- <-. now destruct (Hok e).
  - rewrite live_start in Hrun by congruence. now injection Hrun as <- <-.
  - rewrite (live_idle _ _ _ _ _ _ Hr Hl) in Hrun. now injection Hrun as <- <-.
Qed.

(** X16. A run of the script that ends without an exception never
    leaves an empty log that was not there before: a flush happens only
    for a buffer with at least one record. *)
Theorem script_never_writes_empty_log model base_df pg v button w out w' :
  script model base_df pg v button w = (out, w') ->
  (forall e, out <> Raise e) ->
  forall p, fs_files (fs w') !! p = Some [] ->
            fs_files (fs w) !! p = Some [].
Proof.
  intros Hrun Hok p.
  destruct (driver_mapping !! v) as [d|] eqn:Hd.
  2:{ unfold script in Hrun. unfold mbind at 1, M_bind at 1 in Hrun.
      cbn [os_makedirs] in Hrun.
      unfold mbind at 1, M_bind at 1 in Hrun. rewrite Hd in Hrun.
      injection Hrun as <- <-. now destruct (Hok KeyError). }
  destruct pg.
  - unfold script in Hrun. unfold mbind at 1, M_bind at 1 in Hrun.
    cbn [os_makedirs] in Hrun.
    unfold mbind at 1, M_bind at 1 in Hrun. rewrite Hd in Hrun.
    cbn [call mret M_ret] in Hrun. unfold mbind at 1, M_bind at 1 in Hrun.
    match type of Hrun with
    | context [dashboard v ?W] =>
        pose proof (dashboard_world v W) as Hw;
        destruct (dashboard v W) as [[view| |e] w1]
    end; cbn [snd] in Hw; subst w1; injection Hrun as <- <-;
      exact (fun H => H).
  - rewrite (script_live _ _ _ _ _ _ Hd) in Hrun.
    destruct (live_monitoring _ _ _ _ _ _) as [[[]| |e] w1] eqn:Hlive;
      injection Hrun as <- <-;
      try (now destruct (Hok e));
      apply (live_monitoring_no_empty _ _ _ _ _ _ _ _ Hlive); discriminate.
Qed.

Lemma script_never_writes_empty_log_witness :
  let row := scenario_reading (mk_datetime 2024 3 7 9 5 1 0) 0 0 0 in
  let w := mk_world (mk_session_state (Some true) (Some []))
                    (mk_filesystem {["logs"]} ∅)
                    (fun n => mk_datetime 2024 3 7 9 5 (Z.of_nat n) 0)
                    0 None None in
  fs_files (fs (snd (script picky_model [row] LiveMonitoring "KA-01" false w)))
    !! "logs/KA-01/2024-03-07_09-05-01_log.csv" <> Some [].
Proof.
  intros row w Hp.
  destruct (script picky_model [row] LiveMonitoring "KA-01" false w)
    as [out w'] eqn:Hrun.
  assert (Hout : out = Done LiveView)
    by (apply (f_equal fst) in Hrun; exact (eq_sym Hrun)).
  apply (script_never_writes_empty_log _ _ _ _ _ _ _ _ Hrun) in Hp.
  - discriminate Hp.
  - intros e. rewrite Hout. discriminate.
Defined.

(** ** A run, then the Dashboard *)

(** X17. Run, then look: after a run from Start to the end of a
    non-empty stream the Dashboard of that vehicle loads the log of the
    run, and its Total Records is the number of readings replayed,
    provided no log already in the folder has a later name. *)
Theorem run_then_dashboard model base_df v w :
  v ∈ vehicle_ids ->
  running (session w) <> Some true ->
  Forall (classified model) (take replay_limit base_df) ->
  take replay_limit base_df <> [] ->
  (forall k, disk_free w = Some k ->
             length (take replay_limit base_df) <= k) ->
  (forall name, name ∈ listing (log_folder_of v) (fs w) ->
     String.compare name
       (log_name (strftime
          (clock w (tick w + length (take replay_limit base_df)))))
     <> Gt) ->
  exists w' records,
    interact model base_df LiveMonitoring v true w = (Done LiveView, w')
    /\ log_data (session w') = Some records
    /\ fst (script model base_df Dashboard v false w')
       = Done (DashboardView
                 (Loaded
                    (log_path_of v
                       (clock w (tick w + length (take replay_limit base_df))))
                    (length (take replay_limit base_df))
                    (foldr Z.add 0%Z (prediction <$> records)))).
Proof.
  intros Hv Hidle Hall Hdf Hfree Hmax. destruct (driver_known v Hv) as [d Hd].
  set (df := take replay_limit base_df) in *.
  set (w1 := set_session (mk_session_state (Some true) (Some []))
               (snd (os_makedirs "logs" w))).
  assert (Hrun1 : script model base_df LiveMonitoring v true w = (Rerun, w1)).
  { rewrite (script_live _ _ _ _ _ _ Hd).
    rewrite live_start by exact Hidle. reflexivity. }
  set (records := pass_records model v d (clock w) (tick w) df).
  assert (Hlen : length records = length df)
    by (apply pass_records_length; exact Hall).
  destruct (live_resume_pass model base_df v d (snd (os_makedirs "logs" w1))
              [] eq_refl eq_refl Hall) as [shown Hlive].
  fold df in Hlive.
  change (clock (snd (os_makedirs "logs" w1))) with (clock w) in Hlive.
  change (tick (snd (os_makedirs "logs" w1))) with (tick w) in Hlive.
  cbn [app] in Hlive. fold records in Hlive.
  unfold interact. rewrite Hrun1, (script_live _ _ _ _ _ _ Hd), Hlive.
  assert (Hne : records <> []).
  { intros Hnil. rewrite Hnil in Hlen. destruct df; [congruence|].
    discriminate Hlen. }
  erewrite flush_log_rows by (reflexivity || exact Hne).
  edestruct to_csv_done as [free Hcsv]; [|rewrite Hcsv].
  { intros k Hk. rewrite Hlen. apply Hfree. exact Hk. }
  eexists _, records. split; [reflexivity|]. split; [reflexivity|].
  unfold script. erewrite bind_done by reflexivity.
  unfold mbind at 1, M_bind at 1. rewrite Hd. cbn [call mret M_ret].
  unfold mbind at 1, M_bind at 1.
  erewrite (dashboard_after_write v w _ (clock w (tick w + length df))
              records Hv);
    [cbn [fst]; rewrite Hlen; reflexivity | reflexivity | | | | exact Hmax].
  - intros p Hp. cbn. rewrite !elem_of_union. tauto.
  - intros p. cbn -[path_prefixes log_folder_of].
    rewrite !elem_of_union, !elem_of_list_to_set, (folder_prefixes v Hv).
    change (path_prefixes "" "logs") with ["logs"].
    rewrite !elem_of_cons, !elem_of_nil. tauto.
  - cbn -[path_prefixes log_folder_of].
    rewrite !elem_of_union, !elem_of_list_to_set, (folder_prefixes v Hv).
    rewrite !elem_of_cons. tauto.
Qed.

Lemma run_then_dashboard_witness :
  let model := mk_classifier (fun _ => Some [1%Q])
                             (fun _ => Some [[(1#4)%Q; (3#4)%Q]]) in
  let row := scenario_reading (mk_datetime 2024 3 7 9 5 1 0) 0 0 0 in
  exists w' records,
    interact model [row; row] LiveMonitoring "KA-01" true two_logs
    = (Done LiveView, w')
    /\ log_data (session w') = Some records
    /\ fst (script model [row; row] Dashboard "KA-01" false w')
       = Done (DashboardView
                 (Loaded "logs/KA-01/2024-03-07_11-00-02_log.csv" 2
                         (foldr Z.add 0%Z (prediction <$> records)))).
Proof.
  intros model row.
  assert (Hv : "KA-01" ∈ vehicle_ids) by (apply elem_of_cons; now left).
  assert (Hall : Forall (classified model) (take replay_limit [row; row])).
  { change (take replay_limit [row; row]) with [row; row].
    repeat constructor; eexists; reflexivity. }
  assert (Hl : listing (log_folder_of "KA-01") (fs two_logs)
               = ["2024-03-07_10-00-03_log.csv";
                  "2024-03-07_09-59-58_log.csv"])
    by (vm_compute; reflexivity).
  destruct (run_then_dashboard model [row; row] "KA-01" two_logs Hv
              ltac:(discriminate) Hall ltac:(discriminate)
              ltac:(intros k Hk; discriminate Hk))
    as (w' & records & H1 & H2 & H3).
  - intros name. rewrite Hl. intros Hin.
    apply elem_of_cons in Hin as [->|Hin];
      [|apply list_elem_of_singleton in Hin as ->];
      vm_compute; discriminate.
  - exists w', records. split; [exact H1|]. split; [exact H2 | exact H3].
Defined.

(** ** Answers the loop cannot index *)

(** X18. The loop reads the probability at [[0][1]]: when the model's
    probability row has fewer than two columns, or either answer has no
    row at all, the reading fails with an IndexError before anything is
    recorded, and the world is left as it was. *)
Theorem short_answer_index_error model v d row w preds probas :
  predict model (features row) = Some preds ->
  predict_proba model (features row) = Some probas ->
  (preds = []
   \/ probas = []
   \/ exists proba, probas !! 0%nat = Some proba /\ length proba < 2) ->
  process_row model v d row w = (Raise IndexError, w).
Proof.
  intros Hp Hq Hshort. unfold process_row, index, call, raise.
  unfold mbind at 1, M_bind at 1. rewrite Hp. cbn [mret M_ret].
  unfold mbind at 1, M_bind at 1.
  destruct preds as [|pred preds]; [reflexivity|]. cbn [lookup list_lookup].
  cbn [mret M_ret]. unfold mbind at 1, M_bind at 1. rewrite Hq.
  cbn [mret M_ret]. unfold mbind at 1, M_bind at 1.
  destruct Hshort as [H|[->|(proba & Hrow & Hlen)]];
    [discriminate H | reflexivity |].
  rewrite Hrow. cbn [mret M_ret]. unfold mbind at 1, M_bind at 1.
  destruct proba as [|p0 [|p1 proba]]; [reflexivity | reflexivity |].
  cbn [length] in Hlen. lia.
Qed.

Lemma short_answer_index_error_witness :
  let model := mk_classifier (fun _ => Some [0%Q])
                             (fun _ => Some [[1%Q]]) in
  let row := scenario_reading (mk_datetime 2024 3 7 9 5 1 0) 0 0 0 in
  let w := mk_world (mk_session_state (Some true) (Some []))
                    (mk_filesystem {["logs"]} ∅)
                    (fun n => mk_datetime 2024 3 7 9 5 (Z.of_nat n) 0)
                    0 None None in
  process_row model "KA-01" "Rishab" row w = (Raise IndexError, w).
Proof.
  intros model row w.
  apply (short_answer_index_error model "KA-01" "Rishab" row w
           [0%Q] [[1%Q]] eq_refl eq_refl).
  right. right. exists [1%Q]. split; [reflexivity | simpl; lia].
Defined.
